(** * DebtDude backend: transaction analysis and response routing

    A shallow embedding of the computational core of [server.js]:
    [getTopPeople], [analyzeTransactions], [requiresTransactionData] and
    [generateChatResponse], together with the pieces of the JavaScript
    runtime they rely on (property lookup and enumeration on plain objects,
    [Array.prototype.sort] / [slice], [String.prototype.toLowerCase] /
    [includes], lexical scoping of [const]).

    Conventions of the model:
    - amounts are integers ([Z]); JavaScript numbers add and subtract
      integers exactly below 2^53, and the analysis only adds, subtracts,
      compares and takes absolute values;
    - instants are milliseconds since the epoch ([Z]), the value a moment
      object wraps;
    - strings are byte strings (the UTF-8 encoding of the JavaScript string). *)

From Stdlib Require Import ZArith NArith QArith List String Ascii Bool Lia.
From Stdlib Require Import Permutation Sorted.
From Stdlib Require DecimalString DecimalZ.
Import ListNotations.

Local Open Scope string_scope.
Local Open Scope Z_scope.
Local Open Scope list_scope.

(* ------------------------------------------------------------------ *)
(** ** Data model *)

(** A transaction as the request body carries it: [{ timestamp, amount, name }]. *)
Module Transaction.
Record t := mk { timestamp : Z; amount : Z; name : string }.
End Transaction.

(** The per-counterparty object built at line 70:
    [{ name: t.name, amount: 0, count: 0 }]. *)
Module Person.
Record t := mk { name : string; amount : Z; count : nat }.
End Person.

(** The object literal returned by [analyzeTransactions] (lines 55-63). *)
Record AnalysisSummary := mkSummary {
  period : string;
  totalSpent : Z;
  totalReceived : Z;
  netAmount : Z;
  transactionCount : nat;
  topSenders : list Person.t;
  topReceivers : list Person.t
}.

(* ------------------------------------------------------------------ *)
(** ** JavaScript arrays *)

Module JsArray.
Section Ops.
Context {A : Type}.

(** [arr.slice(start, end)]: a negative bound counts from the end of the
    array, both bounds are clamped to [0 .. length]; [None] is an omitted
    [end]. *)
Definition relativeIndex (len k : Z) : Z :=
  if k <? 0 then Z.max (len + k) 0 else Z.min k len.

Definition slice (start : Z) (stop : option Z) (arr : list A) : list A :=
  let len := Z.of_nat (List.length arr) in
  let from := relativeIndex len start in
  let to := match stop with Some e => relativeIndex len e | None => len end in
  firstn (Z.to_nat (to - from)) (skipn (Z.to_nat from) arr).

(** [arr.sort(compareFn)].  The sort is stable (ECMAScript 2019), so for a
    consistent comparator its result is determined; it is computed here by
    insertion from the right: an element stays in front of the elements
    that followed it unless the comparator puts it strictly after them. *)
Fixpoint sortInsert (compareFn : A -> A -> Z) (x : A) (sorted : list A) : list A :=
  match sorted with
  | [] => [x]
  | y :: rest =>
      if compareFn x y <=? 0 then x :: y :: rest
      else y :: sortInsert compareFn x rest
  end.

Definition sort (compareFn : A -> A -> Z) (arr : list A) : list A :=
  fold_right (sortInsert compareFn) [] arr.

(** [arr.reduce(f, init)] *)
Definition reduce {B : Type} (f : B -> A -> B) (init : B) (arr : list A) : B :=
  fold_left f arr init.

(** [arr.some(p)] *)
Definition some (p : A -> bool) (arr : list A) : bool := existsb p arr.
End Ops.
End JsArray.

(* ------------------------------------------------------------------ *)
(** ** JavaScript plain objects *)

Module JsObject.

(** The property names every object created by [{}] inherits from
    [Object.prototype]. *)
Definition objectPrototypeKeys : list string :=
  [ "constructor"; "__defineGetter__"; "__defineSetter__"; "hasOwnProperty";
    "__lookupGetter__"; "__lookupSetter__"; "isPrototypeOf";
    "propertyIsEnumerable"; "toString"; "valueOf"; "__proto__";
    "toLocaleString" ].

Definition isPrototypeKey (k : string) : bool :=
  existsb (String.eqb k) objectPrototypeKeys.

(** A property name is an array index when it is the canonical decimal
    form of an integer in [0 .. 2^32 - 2]. *)
Definition digitValue (c : ascii) : option N :=
  let n := N_of_ascii c in
  if ((48 <=? n) && (n <=? 57))%N then Some (n - 48)%N else None.

Fixpoint parseDigits (s : string) (acc : N) : option N :=
  match s with
  | EmptyString => Some acc
  | String c rest =>
      match digitValue c with
      | Some d => parseDigits rest (10 * acc + d)%N
      | None => None
      end
  end.

Definition arrayIndex (k : string) : option N :=
  match k with
  | EmptyString => None
  | String c rest =>
      if (Ascii.eqb c "0" && negb (String.eqb rest EmptyString))%bool then None
      else match parseDigits k 0%N with
           | Some n => if (n <? 4294967295)%N then Some n else None
           | None => None
           end
  end.

Definition isArrayIndex (k : string) : bool :=
  match arrayIndex k with Some _ => true | None => false end.

Definition indexOf (k : string) : N :=
  match arrayIndex k with Some n => n | None => 0%N end.

(** Ascending order on array-index keys. *)
Fixpoint insertKey (k : string) (ks : list string) : list string :=
  match ks with
  | [] => [k]
  | k' :: rest =>
      if (indexOf k <=? indexOf k')%N then k :: k' :: rest
      else k' :: insertKey k rest
  end.

Definition sortKeys (ks : list string) : list string :=
  fold_right insertKey [] ks.

(** [OrdinaryOwnPropertyKeys] on a list of string keys given in creation
    order: the array indices in ascending numeric order, then the other
    keys in creation order. *)
Definition ownKeyOrder (created : list string) : list string :=
  sortKeys (filter isArrayIndex created)
    ++ filter (fun k => negb (isArrayIndex k)) created.

Section Obj.
Context {V : Type}.

(** An object created by [{}]: its own properties in creation order. *)
Definition t := list (string * V).

Definition empty : t := [].

Fixpoint getOwn (k : string) (o : t) : option V :=
  match o with
  | [] => None
  | (k', v) :: rest => if String.eqb k k' then Some v else getOwn k rest
  end.

(** [o[k] = v] on an own or a new property: an existing property keeps
    its place, a new one is created last. *)
Fixpoint setOwn (k : string) (v : V) (o : t) : t :=
  match o with
  | [] => [(k, v)]
  | (k', v') :: rest =>
      if String.eqb k k' then (k', v) :: rest else (k', v') :: setOwn k v rest
  end.

(** What the expression [o[k]] denotes: an own property, a member
    inherited from [Object.prototype], or [undefined]. *)
Inductive Resolved :=
| OwnProperty (v : V)
| PrototypeMember
| Undefined.

Definition get (k : string) (o : t) : Resolved :=
  match getOwn k o with
  | Some v => OwnProperty v
  | None => if isPrototypeKey k then PrototypeMember else Undefined
  end.

Definition keys (o : t) : list string := ownKeyOrder (map fst o).

(** [Object.values(o)]: the values of the own properties in
    [OrdinaryOwnPropertyKeys] order. *)
Definition values (o : t) : list V :=
  flat_map (fun k => match getOwn k o with Some v => [v] | None => [] end)
           (keys o).
End Obj.
Arguments t : clear implicits.
Arguments Resolved : clear implicits.
End JsObject.

(* ------------------------------------------------------------------ *)
(** ** [getTopPeople] (lines 66-79) *)

(** The body of the [forEach] callback, lines 69-73.
    [!people[t.name]] holds exactly when the lookup is [undefined]: own
    properties are the objects of line 70 and the inherited members are
    functions or objects, all truthy.  Lines 72-73 then update the object
    that [people[t.name]] denotes; when that is an inherited member the
    update lands on the member and [people] gets no own property. *)
Definition accumulate (people : JsObject.t Person.t) (t : Transaction.t)
  : JsObject.t Person.t :=
  let key := Transaction.name t in
  let people1 :=
    match JsObject.get key people with
    | JsObject.Undefined =>
        JsObject.setOwn key (Person.mk key 0 0) people
    | _ => people
    end in
  match JsObject.get key people1 with
  | JsObject.OwnProperty p =>
      JsObject.setOwn key
        (Person.mk (Person.name p)
                   (Person.amount p + Z.abs (Transaction.amount t))
                   (Person.count p + 1))
        people1
  | _ => people1
  end.

Definition byAmountDesc (a b : Person.t) : Z := Person.amount b - Person.amount a.

Definition getTopPeople (transactions : list Transaction.t) : list Person.t :=
  let people := fold_left accumulate transactions JsObject.empty in
  JsArray.slice 0 (Some 5) (JsArray.sort byAmountDesc (JsObject.values people)).

(* ------------------------------------------------------------------ *)
(** ** The moment library, as far as [analyzeTransactions] uses it *)

Module Moment.

(** The units the source passes to [subtract]. *)
Inductive unit := Day | Week | Month | Year.

(** [a.isAfter(b)]: strictly later, to the millisecond. *)
Definition isAfter (a b : Z) : bool := b <? a.

(** Calendar arithmetic of [subtract] when the process runs in UTC.
    A duration of one week is seven days and one of a year is twelve
    months; days are taken off the date, months off the month with the day
    of the month clamped to the length of the target month. *)
Definition msPerDay : Z := 86400000.

Definition isLeapYear (y : Z) : bool :=
  ((y mod 4 =? 0) && negb (y mod 100 =? 0)) || (y mod 400 =? 0).

(** [daysInMonth(year, month)] with a 0-based month that may lie outside
    [0 .. 11]. *)
Definition daysInMonth (y m : Z) : Z :=
  let modMonth := m mod 12 in
  let y' := y + (m - modMonth) / 12 in
  if modMonth =? 1 then (if isLeapYear y' then 29 else 28)
  else 31 - ((modMonth mod 7) mod 2).

(** Days since 1970-01-01 of a proleptic Gregorian date (month 1-based). *)
Definition daysFromCivil (y m d : Z) : Z :=
  let y1 := if m <=? 2 then y - 1 else y in
  let era := y1 / 400 in
  let yoe := y1 - era * 400 in
  let mp := (m + 9) mod 12 in
  let doy := (153 * mp + 2) / 5 + d - 1 in
  let doe := yoe * 365 + yoe / 4 - yoe / 100 + doy in
  era * 146097 + doe - 719468.

(** The date (year, 1-based month, day) of a day number. *)
Definition civilFromDays (z : Z) : Z * Z * Z :=
  let z1 := z + 719468 in
  let era := z1 / 146097 in
  let doe := z1 - era * 146097 in
  let yoe := (doe - doe / 1460 + doe / 36524 - doe / 146096) / 365 in
  let doy := doe - (365 * yoe + yoe / 4 - yoe / 100) in
  let mp := (5 * doy + 2) / 153 in
  let d := doy - (153 * mp + 2) / 5 + 1 in
  let m := if mp <? 10 then mp + 3 else mp - 9 in
  let y := yoe + era * 400 + (if m <=? 2 then 1 else 0) in
  (y, m, d).

(** [setMonth(mom, value)]: [value] is a 0-based month, possibly negative. *)
Definition setMonth (instant value : Z) : Z :=
  let day := instant / msPerDay in
  let timeOfDay := instant mod msPerDay in
  let '(y, m, d) := civilFromDays day in
  let date := if d <? 29 then d else Z.min d (daysInMonth y value) in
  let y' := y + value / 12 in
  let m' := value mod 12 + 1 in
  daysFromCivil y' m' date * msPerDay + timeOfDay.

Definition monthOf (instant : Z) : Z :=
  let '(_, m, _) := civilFromDays (instant / msPerDay) in m - 1.

(** [m.clone().subtract(1, unit)] in UTC. *)
Definition utcSubtract (instant : Z) (u : unit) : Z :=
  match u with
  | Day => instant - msPerDay
  | Week => instant - 7 * msPerDay
  | Month => setMonth instant (monthOf instant - 1)
  | Year => setMonth instant (monthOf instant - 12)
  end.
End Moment.

(* ------------------------------------------------------------------ *)
(** ** [analyzeTransactions] (lines 19-64) *)

Section Analyzer.

(** [subtract now u] is [now.clone().subtract(1, u)].  moment computes it in
    the time zone of the process, which the source does not fix, so the
    analysis is stated for any such function; [Moment.utcSubtract] is the
    one of a process running in UTC. *)
Variable subtract : Z -> Moment.unit -> Z.

(** [now] is the instant [moment()] reads from the clock (line 20). *)
Variable now : Z.

(** The [switch] of lines 23-38. *)
Definition startDateOf (period : string) : Z :=
  if String.eqb period "day" then subtract now Moment.Day
  else if String.eqb period "week" then subtract now Moment.Week
  else if String.eqb period "month" then subtract now Moment.Month
  else if String.eqb period "year" then subtract now Moment.Year
  else subtract now Moment.Week.

(** The [const filteredTransactions] of lines 40-42. *)
Definition filteredTransactionsOf
    (transactions : list Transaction.t) (period : string)
  : list Transaction.t :=
  let startDate := startDateOf period in
  filter (fun t => Moment.isAfter (Transaction.timestamp t) startDate)
         transactions.

(** [periodArg] is the second argument; [None] is an omitted argument,
    for which the default parameter value ['week'] applies. *)
Definition analyzeTransactions
    (transactions : list Transaction.t) (periodArg : option string)
  : AnalysisSummary :=
  let period := match periodArg with Some p => p | None => "week" end in
  let filteredTransactions := filteredTransactionsOf transactions period in
  let totalSpent :=
    JsArray.reduce (fun sum t => sum + Z.abs (Transaction.amount t)) 0
      (filter (fun t => Transaction.amount t <? 0) filteredTransactions) in
  let totalReceived :=
    JsArray.reduce (fun sum t => sum + Transaction.amount t) 0
      (filter (fun t => Transaction.amount t >? 0) filteredTransactions) in
  let topSenders :=
    getTopPeople (filter (fun t => Transaction.amount t >? 0) filteredTransactions) in
  let topReceivers :=
    getTopPeople (filter (fun t => Transaction.amount t <? 0) filteredTransactions) in
  {| period := period;
     totalSpent := totalSpent;
     totalReceived := totalReceived;
     netAmount := totalReceived - totalSpent;
     transactionCount := List.length filteredTransactions;
     topSenders := topSenders;
     topReceivers := topReceivers |}.

End Analyzer.

(* ------------------------------------------------------------------ *)
(** ** JavaScript strings *)

Module JsString.

(** [toLowerCase] on one byte: the letters [A-Z] go to [a-z].  Bytes of
    multi-byte UTF-8 sequences are kept; a character outside ASCII
    lower-cases to characters outside ASCII, except U+0130 (to [i] followed
    by U+0307) and U+212A (to [k]), and no keyword of the classifier ends
    in [i] or contains [k]. *)
Definition lowerByte (c : ascii) : ascii :=
  let n := nat_of_ascii c in
  if ((65 <=? n) && (n <=? 90))%nat then ascii_of_nat (n + 32) else c.

Fixpoint toLowerCase (s : string) : string :=
  match s with
  | EmptyString => EmptyString
  | String c rest => String (lowerByte c) (toLowerCase rest)
  end.

(** [s.includes(search)]: [search] starts at some position of [s]. *)
Fixpoint includes (s search : string) : bool :=
  String.prefix search s
  || match s with
     | EmptyString => false
     | String _ rest => includes rest search
     end.
End JsString.

(* ------------------------------------------------------------------ *)
(** ** [requiresTransactionData] (lines 81-91) *)

Definition transactionKeywords : list string :=
  [ "balance"; "spend"; "spent"; "expense"; "income"; "receive"; "received";
    "transaction"; "money"; "payment"; "transfer"; "budget"; "financial";
    "analysis"; "summary"; "total"; "amount"; "cost"; "price"; "bill" ].

Definition requiresTransactionData (message : string) : bool :=
  JsArray.some
    (fun keyword => JsString.includes (JsString.toLowerCase message) keyword)
    transactionKeywords.

(* ------------------------------------------------------------------ *)
(** ** Values exchanged with the text-generation service *)

(** JSON values, with [undefined] for what a property read may yield. *)
#[local] Set Warnings "-register-all".
Inductive Json :=
| JUndefined
| JNull
| JBool (b : bool)
| JNum (n : Z)
| JStr (s : string)
| JArr (items : list Json)
| JObj (fields : list (string * Json)).

Inductive JsError := ReferenceError | TypeError | AxiosError.

(** The outcome of evaluating an expression: a value or a thrown error. *)
Inductive Completion (A : Type) :=
| Ok (a : A)
| Throw (e : JsError).
Arguments Ok {A} a.
Arguments Throw {A} e.

Definition bind {A B : Type} (c : Completion A) (k : A -> Completion B)
  : Completion B :=
  match c with
  | Ok a => k a
  | Throw e => Throw e
  end.

Notation "x <- c ;; k" := (bind c (fun x => k))
  (at level 61, c at next level, right associativity).

Module JsonAccess.

Fixpoint field (k : string) (fields : list (string * Json)) : Json :=
  match fields with
  | [] => JUndefined
  | (k', v) :: rest => if String.eqb k k' then v else field k rest
  end.

(** [v.k] for the property names the source reads ([candidates],
    [content], [parts], [text]): a [TypeError] on [undefined] and [null],
    the field of an object, [undefined] on anything else. *)
Definition prop (k : string) (v : Json) : Completion Json :=
  match v with
  | JUndefined | JNull => Throw TypeError
  | JObj fields => Ok (field k fields)
  | _ => Ok JUndefined
  end.

(** [v[0]] *)
Definition first (v : Json) : Completion Json :=
  match v with
  | JUndefined | JNull => Throw TypeError
  | JArr (x :: _) => Ok x
  | JStr (String c _) => Ok (JStr (String c EmptyString))
  | JObj fields => Ok (field "0" fields)
  | _ => Ok JUndefined
  end.
End JsonAccess.

(** The two template literals of lines 102-110 and 113-115, kept as the
    template chosen and the values interpolated into it: the message, and for
    the grounded template the analysis and the raw transactions, each of
    which the source passes through [JSON.stringify]. *)
Inductive Prompt :=
| GroundedPrompt (message : string) (analysis : AnalysisSummary)
                 (rawTransactions : list Transaction.t)
| GeneralPrompt (message : string).

(** What an identifier may denote at line 120: a prompt built by this
    function, or a value supplied by the host. *)
Inductive Value :=
| VPrompt (p : Prompt)
| VHost (v : Json).

(** The arguments of the [axios.post] call of lines 118-126. *)
Record GenRequest := mkRequest {
  url : string;
  text : Value;
  temperature : Q;
  maxOutputTokens : Z
}.

(** How the promise returned by [axios.post] settles: rejected (network
    error, a status outside 2xx such as a rate limit) or fulfilled with a
    response whose [data] is the parsed body. *)
Inductive AxiosOutcome :=
| Rejected
| Fulfilled (data : Json).

(* ------------------------------------------------------------------ *)
(** ** [generateChatResponse] (lines 93-133) *)

(** How the [if] statement of lines 96-116 completes. *)
Inductive IfCompletion :=
| Return (v : Json)
| FallThrough (blockScope : list (string * Value)).

(** [response.data.candidates[0].content.parts[0].text] (line 128). *)
Definition responseText (data : Json) : Completion Json :=
  candidates <- JsonAccess.prop "candidates" data ;;
  candidate <- JsonAccess.first candidates ;;
  content <- JsonAccess.prop "content" candidate ;;
  parts <- JsonAccess.prop "parts" content ;;
  part <- JsonAccess.first parts ;;
  JsonAccess.prop "text" part.

Section Router.

Variable subtract : Z -> Moment.unit -> Z.
Variable now : Z.

(** [process.env.GEMINI_API_URL] and [process.env.GEMINI_API_KEY]. *)
Variable GEMINI_API_URL GEMINI_API_KEY : option string.

(** The external generator behind [axios.post]. *)
Variable post : GenRequest -> AxiosOutcome.

(** The binding of the identifier [prompt] in the global environment of
    the host, if it has one.  Node.js has none. *)
Variable hostPrompt : option Json.

Definition interpolate (v : option string) : string :=
  match v with Some s => s | None => "undefined" end.

(** [!userTransactions || userTransactions.length === 0]; [None] is an
    absent ([undefined] or [null]) argument. *)
Definition noTransactions (userTransactions : option (list Transaction.t)) : bool :=
  match userTransactions with
  | None => true
  | Some txs => Nat.eqb (List.length txs) 0
  end.

(** Lines 96-116.  Each branch declares its own [const prompt]; the
    declarations are recorded as the scope of the block that made them. *)
Definition chooseContext
    (message : string) (userTransactions : option (list Transaction.t))
  : IfCompletion :=
  if requiresTransactionData message then
    if noTransactions userTransactions then Return JNull
    else
      let txs := match userTransactions with Some txs => txs | None => [] end in
      let analysis := analyzeTransactions subtract now txs None in
      let prompt :=
        GroundedPrompt message analysis (JsArray.slice (-10) None txs) in
      FallThrough [("prompt", VPrompt prompt)]
  else
    let prompt := GeneralPrompt message in
    FallThrough [("prompt", VPrompt prompt)].

(** Resolution of the identifier [prompt] at line 120.  The reference
    stands after the [if] statement, outside both blocks, so their
    [const prompt] bindings are not in scope; neither the function
    ([message], [userTransactions]) nor the module (lines 1-16 and the
    function declarations) declares the name, which leaves the global
    environment of the host. *)
Definition resolvePrompt : Completion Value :=
  match hostPrompt with
  | Some v => Ok (VHost v)
  | None => Throw ReferenceError
  end.

(** The [try] block, with the list of requests sent to the generator. *)
Definition tryBlock
    (message : string) (userTransactions : option (list Transaction.t))
  : Completion Json * list GenRequest :=
  match chooseContext message userTransactions with
  | Return v => (Ok v, [])
  | FallThrough _ =>
      match resolvePrompt with
      | Throw e => (Throw e, [])
      | Ok promptValue =>
          let request :=
            {| url := (interpolate GEMINI_API_URL ++ "?key="
                         ++ interpolate GEMINI_API_KEY)%string;
               text := promptValue;
               temperature := 7 # 10;
               maxOutputTokens := 500 |} in
          match post request with
          | Rejected => (Throw AxiosError, [request])
          | Fulfilled data => (responseText data, [request])
          end
      end
  end.

(** The whole function: the [catch] clause turns any error into [null].
    The result is the value the returned promise resolves to, paired with
    the requests the generator received. *)
Definition generateChatResponse
    (message : string) (userTransactions : option (list Transaction.t))
  : Json * list GenRequest :=
  match tryBlock message userTransactions with
  | (Ok v, sent) => (v, sent)
  | (Throw _, sent) => (JNull, sent)
  end.

End Router.


(* ------------------------------------------------------------------ *)
(** ** Vocabulary of the statements *)

Definition Zsum (l : list Z) : Z := fold_right Z.add 0 l.

Definition absAmount (t : Transaction.t) : Z := Z.abs (Transaction.amount t).




Definition namesOf (txs : list Transaction.t) : list string :=
  map Transaction.name txs.








(** The last [n] elements of a list, all of it when it is shorter. *)
Definition lastN {A : Type} (n : nat) (l : list A) : list A :=
  skipn (List.length l - n) l.


(** A response of the shape the service documents, carrying [answer]. *)
Definition textResponse (answer : string) : Json :=
  JObj [("candidates",
         JArr [JObj [("content",
                      JObj [("parts", JArr [JObj [("text", JStr answer)]])])]])].

Definition tx (ts amt : Z) (n : string) : Transaction.t := Transaction.mk ts amt n.


(** A transaction lies in the window opened at [startDate]: its timestamp is
    strictly later. *)
Definition inWindow (startDate : Z) (t : Transaction.t) : bool :=
  startDate <? Transaction.timestamp t.

(** The lookback unit of a period name: [day], [month] and [year] name
    themselves, anything else means a week. *)
Definition lookback (period : string) : Moment.unit :=
  if String.eqb period "day" then Moment.Day
  else if String.eqb period "month" then Moment.Month
  else if String.eqb period "year" then Moment.Year
  else Moment.Week.

(** An own property of [people] is filed under the name it carries, and that
    name is the name of a transaction already visited. *)
Definition filedUnderSeenName (seen : list Transaction.t) (kv : string * Person.t)
  : Prop :=
  Person.name (snd kv) = fst kv /\ In (fst kv) (namesOf seen).

(** An ungrounded answer: the classifier does not flag the message and the
    result is the generator's text, obtained from one request that carries
    the general-advice prompt. *)
Definition UngroundedAnswer
    (subtract : Z -> Moment.unit -> Z) (now : Z)
    (GEMINI_API_URL GEMINI_API_KEY : option string)
    (post : GenRequest -> AxiosOutcome) (hostPrompt : option Json)
    (message : string) (userTransactions : option (list Transaction.t)) : Prop :=
  requiresTransactionData message = false
  /\ exists request answer,
       generateChatResponse subtract now GEMINI_API_URL GEMINI_API_KEY post
         hostPrompt message userTransactions
       = (JStr answer, [request])
       /\ text request = VPrompt (GeneralPrompt message).


(* ------------------------------------------------------------------ *)
(** ** The in-memory store and the request handlers (lines 14-16, 135-284)

    A handler is a function of the request fields it destructures, of the
    store it finds, and of the clock readings it takes; it returns the
    response it sends and the store it leaves.  [req.body] is taken to be an
    object, as [express.json()] provides for a JSON request.  Handlers are
    taken to run one after the other: what another request does to the store
    while [sendMessage] awaits the generator is not modelled. *)

(** [n.toString()] for an integral number: plain decimal digits, as
    JavaScript prints integers below 10^21. *)
Definition decimal (n : Z) : string :=
  DecimalString.NilZero.string_of_int (Z.to_int n).

(** The conversation object of lines 192-199. *)
Module Conversation.
Record t := mk {
  id : string;
  title : string;
  userId : option string;
  createdAt : string;
  lastMessage : string;
  lastMessageTime : string
}.
End Conversation.

(** The message objects of lines 235-241 and 256-262.  [text] is the request
    string for a user message and whatever [generateChatResponse] returned
    for an assistant message. *)
Module Message.
Record t := mk {
  id : string;
  text : Json;
  isMe : bool;
  timestamp : string;
  time : string
}.
End Message.

(** [let conversations = []; let messages = {};] *)
Record Store := mkStore {
  conversations : list Conversation.t;
  messages : JsObject.t (list Message.t)
}.

Definition emptyStore : Store := mkStore [] JsObject.empty.

(** The [transactions] field of a request body, as the handlers test it:
    falsy or missing, present but not an array, or an array. *)
Inductive TransactionsField :=
| NoTransactions
| NotAnArray (v : Json)
| TransactionArray (txs : list Transaction.t).

(** What [messages[id] || []] evaluates to (line 215). *)
Inductive MessagesData :=
| MessageList (l : list Message.t)
| InheritedMember (key : string).

Inductive Body :=
| ErrorBody (error : string)
| AnalysisBody (data : AnalysisSummary)
| DashboardBody (totalBalance weeklySpending weeklyReceived netWeekly : Z)
| ConversationsBody (data : list Conversation.t)
| ConversationBody (data : Conversation.t)
| MessagesBody (data : MessagesData)
| ExchangeBody (userMessage aiMessage : Message.t).

(** [res.status(code).json(body)]; [res.json(body)] has status 200. *)
Record Response := mkResponse { status : nat; body : Body }.

(** The clock readings of [POST /api/conversations], one per site:
    [Date.now()] at line 190, [new Date()] at lines 196 and 198. *)
Record CreateClock := mkCreateClock {
  atConversationId : Z;
  atCreatedAt : Z;
  atFirstMessageTime : Z
}.

(** The clock readings of [POST /api/conversations/:id/messages], one per
    site, each used only if execution reaches the site: lines 236, 239, 240,
    line 20 (through line 101), lines 257, 260, 261 and 270. *)
Record SendClock := mkSendClock {
  atUserMessageId : Z;
  atUserTimestamp : Z;
  atUserTime : Z;
  atAnalysis : Z;
  atAiMessageId : Z;
  atAiTimestamp : Z;
  atAiTime : Z;
  atLastMessageTime : Z
}.

(** A string field of the body is truthy when present and not empty. *)
Definition truthy (field : option string) : bool :=
  match field with
  | Some s => negb (String.eqb s "")
  | None => false
  end.

Definition fieldText (field : option string) : string :=
  match field with Some s => s | None => "" end.

(** [conversations.findIndex(c => c.id === id)] followed by the two
    assignments of lines 269-270 on the conversation found: the first
    conversation with that id is updated, the others are left alone. *)
Fixpoint touchConversation (id message stamp : string)
    (cs : list Conversation.t) : list Conversation.t :=
  match cs with
  | [] => []
  | c :: rest =>
      if String.eqb (Conversation.id c) id
      then Conversation.mk (Conversation.id c) (Conversation.title c)
             (Conversation.userId c) (Conversation.createdAt c) message stamp
           :: rest
      else c :: touchConversation id message stamp rest
  end.

Section Handlers.

Variable subtract : Z -> Moment.unit -> Z.

(** [new Date(t).toISOString()] and [moment(t).format('HH:mm')], the latter
    in the time zone of the process. *)
Variable toISOString : Z -> string.
Variable formatTime : Z -> string.

Variable GEMINI_API_URL GEMINI_API_KEY : option string.
Variable post : GenRequest -> AxiosOutcome.
Variable hostPrompt : option Json.

(** [POST /api/analyze] (lines 138-152); [now] is the reading of line 20. *)
Definition analyzeHandler (now : Z)
    (transactions : TransactionsField) (periodField : option string)
  : Response :=
  let period := match periodField with Some p => p | None => "week" end in
  match transactions with
  | TransactionArray txs =>
      let analysis := analyzeTransactions subtract now txs (Some period) in
      mkResponse 200 (AnalysisBody analysis)
  | _ => mkResponse 400 (ErrorBody "Transactions array is required")
  end.


(** [GET /api/conversations] (lines 182-184). *)
Definition listConversations (store : Store) : Response :=
  mkResponse 200 (ConversationsBody (conversations store)).

(** [POST /api/conversations] (lines 187-209).  The id is a string of
    digits, so the assignment of line 202 creates or overwrites an own
    property of [messages]. *)
Definition createConversation (clock : CreateClock)
    (titleField userIdField : option string) (store : Store)
  : Response * Store :=
  let conversationId := decimal (atConversationId clock) in
  let conversation :=
    Conversation.mk conversationId
      (if truthy titleField then fieldText titleField else "New Conversation")
      userIdField
      (toISOString (atCreatedAt clock))
      "Conversation started"
      (toISOString (atFirstMessageTime clock)) in
  (mkResponse 200 (ConversationBody conversation),
   mkStore (conversations store ++ [conversation])
           (JsObject.setOwn conversationId [] (messages store))).

(** [GET /api/conversations/:id/messages] (lines 212-222). *)
Definition getMessages (id : string) (store : Store) : Response :=
  let conversationMessages :=
    match JsObject.get id (messages store) with
    | JsObject.OwnProperty l => MessageList l
    | JsObject.PrototypeMember => InheritedMember id
    | JsObject.Undefined => MessageList []
    end in
  mkResponse 200 (MessagesBody conversationMessages).

(** [POST /api/conversations/:id/messages] (lines 225-284); the third
    component lists the requests sent to the generator.

    Line 243 creates [messages[id]] only when the lookup is falsy, that is
    [undefined]: arrays and inherited members are truthy.  Line 244 calls
    [push] on what [messages[id]] denotes; an inherited member has no
    [push], the call throws a [TypeError] and the [catch] of line 280
    answers 500. *)
Definition sendMessage (clock : SendClock) (id : string)
    (messageField userIdField : option string)
    (transactions : option (list Transaction.t)) (store : Store)
  : Response * Store * list GenRequest :=
  if negb (truthy messageField) || negb (truthy userIdField) then
    (mkResponse 400 (ErrorBody "Message and userId are required"), store, [])
  else
    let message := fieldText messageField in
    let userMessage :=
      Message.mk (decimal (atUserMessageId clock)) (JStr message) true
        (toISOString (atUserTimestamp clock)) (formatTime (atUserTime clock)) in
    let messages1 :=
      match JsObject.get id (messages store) with
      | JsObject.Undefined => JsObject.setOwn id [] (messages store)
      | _ => messages store
      end in
    match JsObject.get id messages1 with
    | JsObject.OwnProperty stored =>
        let messages2 := JsObject.setOwn id (stored ++ [userMessage]) messages1 in
        let '(aiResponse, sent) :=
          generateChatResponse subtract (atAnalysis clock) GEMINI_API_URL
            GEMINI_API_KEY post hostPrompt message transactions in
        match aiResponse with
        | JNull =>
            (mkResponse 400
               (ErrorBody "This question requires transaction data to answer properly. Please ensure your Firebase transactions are synced."),
             mkStore (conversations store) messages2, sent)
        | _ =>
            let aiMessage :=
              Message.mk (decimal (atAiMessageId clock + 1)) aiResponse false
                (toISOString (atAiTimestamp clock)) (formatTime (atAiTime clock)) in
            let messages3 :=
              JsObject.setOwn id ((stored ++ [userMessage]) ++ [aiMessage]) messages2 in
            (mkResponse 200 (ExchangeBody userMessage aiMessage),
             mkStore
               (touchConversation id message
                  (toISOString (atLastMessageTime clock)) (conversations store))
               messages3,
             sent)
        end
    | _ =>
        (mkResponse 500 (ErrorBody "Failed to send message"),
         mkStore (conversations store) messages1, [])
    end.

End Handlers.

(* ------------------------------------------------------------------ *)
(** ** Further vocabulary *)


(** No own property of the object is filed under an inherited name. *)
Definition ordinaryKeys {V : Type} (o : JsObject.t V) : Prop :=
  Forall (fun kv => JsObject.isPrototypeKey (fst kv) = false) o.



(** The messages filed under [id], none when [id] has no own property. *)
Definition storedAt (id : string) (store : Store) : list Message.t :=
  match JsObject.getOwn id (messages store) with
  | Some l => l
  | None => []
  end.

(** The user message built at lines 235-241. *)
Definition userMessageOf (toISOString formatTime : Z -> string)
    (clock : SendClock) (message : string) : Message.t :=
  Message.mk (decimal (atUserMessageId clock)) (JStr message) true
    (toISOString (atUserTimestamp clock)) (formatTime (atUserTime clock)).

(** The assistant message built at lines 256-262. *)
Definition aiMessageOf (toISOString formatTime : Z -> string)
    (clock : SendClock) (aiResponse : Json) : Message.t :=
  Message.mk (decimal (atAiMessageId clock + 1)) aiResponse false
    (toISOString (atAiTimestamp clock)) (formatTime (atAiTime clock)).

Definition refusalText : string :=
  "This question requires transaction data to answer properly. Please ensure your Firebase transactions are synced.".

(** The stores the two mutating handlers can produce from the empty store,
    handlers running one after the other; the generator may answer
    differently at every request. *)
Section Reachability.
Variable subtract : Z -> Moment.unit -> Z.
Variable toISOString formatTime : Z -> string.
Variable GEMINI_API_URL GEMINI_API_KEY : option string.
Variable hostPrompt : option Json.

Inductive Reachable : Store -> Prop :=
| reach_start : Reachable emptyStore
| reach_create (store : Store) (clock : CreateClock)
    (titleField userIdField : option string) :
    Reachable store ->
    Reachable (snd (createConversation toISOString clock titleField userIdField
                      store))
| reach_send (store : Store) (post : GenRequest -> AxiosOutcome)
    (clock : SendClock) (id : string) (messageField userIdField : option string)
    (transactions : option (list Transaction.t)) :
    Reachable store ->
    Reachable (snd (fst (sendMessage subtract toISOString formatTime
                           GEMINI_API_URL GEMINI_API_KEY post hostPrompt clock id
                           messageField userIdField transactions store))).
End Reachability.

Definition isNull (v : Json) : bool :=
  match v with JNull => true | _ => false end.




(** A store that holds user messages only and whose conversations still
    show the initial last message. *)
Definition unanswered (store : Store) : Prop :=
  Forall (fun kv => Forall (fun m => Message.isMe m = true) (snd kv))
         (messages store)
  /\ Forall (fun c => Conversation.lastMessage c = "Conversation started")
            (conversations store).
(* ------------------------------------------------------------------ *)
(** ** Arrays: [slice] and [sort] *)

Lemma slice_front {A : Type} (n : nat) (l : list A) :
  JsArray.slice 0 (Some (Z.of_nat n)) l = firstn n l.
Proof.
  unfold JsArray.slice, JsArray.relativeIndex.
  set (len := List.length l).
  change (0 <? 0) with false. cbv iota.
  assert (H0 : Z.min 0 (Z.of_nat len) = 0) by lia. rewrite H0.
  destruct (Z.of_nat n <? 0) eqn:E; [apply Z.ltb_lt in E; lia|].
  change (Z.to_nat 0) with 0%nat. rewrite skipn_O, Z.sub_0_r.
  destruct (Nat.le_gt_cases n len) as [H | H].
  - replace (Z.to_nat (Z.min (Z.of_nat n) (Z.of_nat len))) with n by lia.
    reflexivity.
  - replace (Z.to_nat (Z.min (Z.of_nat n) (Z.of_nat len))) with len by lia.
    unfold len. rewrite firstn_all. symmetry. apply firstn_all2. fold len. lia.
Qed.

Lemma slice_tail {A : Type} (n : nat) (l : list A) :
  (0 < n)%nat -> JsArray.slice (- Z.of_nat n) None l = lastN n l.
Proof.
  intros Hn. unfold JsArray.slice, JsArray.relativeIndex, lastN.
  destruct (- Z.of_nat n <? 0) eqn:E; [|apply Z.ltb_ge in E; lia].
  set (len := List.length l).
  assert (Hfrom : Z.to_nat (Z.max (Z.of_nat len + - Z.of_nat n) 0) = (len - n)%nat) by lia.
  rewrite Hfrom.
  apply firstn_all2. rewrite length_skipn. fold len. lia.
Qed.

Lemma sortInsert_perm {A : Type} (c : A -> A -> Z) (x : A) (l : list A) :
  Permutation (JsArray.sortInsert c x l) (x :: l).
Proof.
  induction l as [|y l IH]; simpl.
  - reflexivity.
  - destruct (c x y <=? 0).
    + reflexivity.
    + rewrite IH. apply perm_swap.
Qed.

Lemma sort_perm {A : Type} (c : A -> A -> Z) (l : list A) :
  Permutation (JsArray.sort c l) l.
Proof.
  induction l as [|x l IH]; simpl.
  - reflexivity.
  - unfold JsArray.sort in *. simpl. rewrite sortInsert_perm. now constructor.
Qed.





Lemma firstn_subset {A : Type} (n : nat) (l : list A) (x : A) :
  In x (firstn n l) -> In x l.
Proof.
  revert n. induction l as [|y l IH]; intros [|n]; simpl; try tauto.
  intros [H | H]; [now left | right; eauto].
Qed.

Lemma firstn_StronglySorted {A : Type} (R : A -> A -> Prop) (n : nat) (l : list A) :
  StronglySorted R l -> StronglySorted R (firstn n l).
Proof.
  intros H. revert n. induction H as [|x l Hl IH Hx]; intros [|n]; simpl;
    try constructor.
  - apply IH.
  - rewrite Forall_forall in *. intros y Hy. apply Hx.
    eapply firstn_subset; eauto.
Qed.


(* ------------------------------------------------------------------ *)
(** ** Plain objects keyed by a list of names *)



Section ObjectOfNames.
Context {V : Type}.
Variable f : string -> V.





End ObjectOfNames.





Lemma filter_all {A : Type} (p : A -> bool) (l : list A) :
  Forall (fun x => p x = true) l -> filter p l = l.
Proof.
  induction 1 as [|x l Hx Hl IH]; simpl; [reflexivity|].
  now rewrite Hx, IH.
Qed.

Lemma filter_none {A : Type} (p : A -> bool) (l : list A) :
  Forall (fun x => p x = false) l -> filter p l = [].
Proof.
  induction 1 as [|x l Hx Hl IH]; simpl; [reflexivity|].
  now rewrite Hx.
Qed.



(* ------------------------------------------------------------------ *)
(** ** The object built by the [forEach] of [getTopPeople] *)














(* ------------------------------------------------------------------ *)
(** ** Counting the grouped transactions *)










(* ------------------------------------------------------------------ *)
(** ** Sums and filters of the analyzer *)

Lemma reduce_sum {A : Type} (f : A -> Z) (l : list A) (init : Z) :
  JsArray.reduce (fun sum t => sum + f t) init l = init + Zsum (map f l).
Proof.
  unfold JsArray.reduce. revert init.
  induction l as [|x l IH]; intros init; simpl; [lia|].
  rewrite IH. lia.
Qed.

Lemma filter_filter {A : Type} (p q : A -> bool) (l : list A) :
  filter q (filter p l) = filter (fun x => p x && q x) l.
Proof.
  induction l as [|x l IH]; simpl; [reflexivity|].
  destruct (p x); simpl; [|exact IH].
  destruct (q x); now rewrite IH.
Qed.


Lemma filter_middle_out {A : Type} (p : A -> bool) (pre post : list A) (x : A) :
  p x = false -> filter p (pre ++ x :: post) = filter p (pre ++ post).
Proof.
  intros H. rewrite !filter_app. simpl. now rewrite H.
Qed.

Lemma filter_middle_in {A : Type} (p : A -> bool) (pre post : list A) (x : A) :
  p x = true -> filter p (pre ++ x :: post) = filter p pre ++ x :: filter p post.
Proof.
  intros H. rewrite !filter_app. simpl. now rewrite H.
Qed.

Section AnalyzerFacts.
Variable subtract : Z -> Moment.unit -> Z.
Variable now : Z.

Lemma startDateOf_lookback (p : string) :
  startDateOf subtract now p = subtract now (lookback p).
Proof.
  unfold startDateOf, lookback.
  destruct (String.eqb p "day"); [reflexivity|].
  destruct (String.eqb_spec p "week") as [-> | _]; [reflexivity|].
  destruct (String.eqb p "month"); [reflexivity|].
  destruct (String.eqb p "year"); reflexivity.
Qed.

Lemma filteredTransactionsOf_filter (txs : list Transaction.t) (p : string) :
  filteredTransactionsOf subtract now txs p
  = filter (inWindow (subtract now (lookback p))) txs.
Proof.
  unfold filteredTransactionsOf. rewrite startDateOf_lookback. reflexivity.
Qed.

End AnalyzerFacts.




(** C9: the end-to-end scenario.  With [now = T0 + 2h], period [week] and the
    transactions [{-50, Bob, T0}], [{200, Alice, T0 + 1h}], the start of the
    window (one week before [now]) precedes [T0] and the summary is
    totalSpent 50, totalReceived 200, netAmount 150, transactionCount 2,
    topSenders [[Alice, 200, 1]], topReceivers [[Bob, 50, 1]]. *)
Theorem analyzeTransactions_scenario
    (subtract : Z -> Moment.unit -> Z) (T0 : Z) :
  subtract (T0 + 7200000) Moment.Week < T0 ->
  analyzeTransactions subtract (T0 + 7200000)
    [tx T0 (-50) "Bob"; tx (T0 + 3600000) 200 "Alice"] (Some "week")
  = {| period := "week";
       totalSpent := 50;
       totalReceived := 200;
       netAmount := 150;
       transactionCount := 2;
       topSenders := [Person.mk "Alice" 200 1];
       topReceivers := [Person.mk "Bob" 50 1] |}.
Proof.
  intros Hstart.
  unfold analyzeTransactions.
  rewrite filteredTransactionsOf_filter.
  change (lookback "week") with Moment.Week.
  assert (Hall : filter (inWindow (subtract (T0 + 7200000) Moment.Week))
                   [tx T0 (-50) "Bob"; tx (T0 + 3600000) 200 "Alice"]
                 = [tx T0 (-50) "Bob"; tx (T0 + 3600000) 200 "Alice"]).
  { apply filter_all. repeat constructor; unfold inWindow; simpl; lia. }
  rewrite Hall. reflexivity.
Qed.

(** The scenario with [T0 = 1700000000000] and the UTC calendar. *)
Lemma analyzeTransactions_scenario_witness :
  analyzeTransactions Moment.utcSubtract (1700000000000 + 7200000)
    [tx 1700000000000 (-50) "Bob"; tx (1700000000000 + 3600000) 200 "Alice"]
    (Some "week")
  = {| period := "week";
       totalSpent := 50;
       totalReceived := 200;
       netAmount := 150;
       transactionCount := 2;
       topSenders := [Person.mk "Alice" 200 1];
       topReceivers := [Person.mk "Bob" 50 1] |}.
Proof.
  apply (analyzeTransactions_scenario Moment.utcSubtract 1700000000000).
  vm_compute. reflexivity.
Defined.

(* ------------------------------------------------------------------ *)
(** ** Where the names of a ranking come from *)

Lemma getOwn_In {V : Type} (k : string) (v : V) (o : JsObject.t V) :
  JsObject.getOwn k o = Some v -> In (k, v) o.
Proof.
  induction o as [|[k' v'] o IH]; simpl; [discriminate|].
  destruct (String.eqb_spec k k') as [-> | _].
  - intros [= ->]. now left.
  - intros H. right. now apply IH.
Qed.

Lemma setOwn_Forall {V : Type} (P : string * V -> Prop) (k : string) (v : V)
    (o : JsObject.t V) :
  Forall P o -> P (k, v) -> Forall P (JsObject.setOwn k v o).
Proof.
  intros Ho Hkv. induction Ho as [|[k' v'] o Hx Ho IH]; simpl.
  - now repeat constructor.
  - destruct (String.eqb_spec k k') as [-> | _]; constructor; assumption.
Qed.

Lemma values_In {V : Type} (v : V) (o : JsObject.t V) :
  In v (JsObject.values o) -> exists k, In (k, v) o.
Proof.
  unfold JsObject.values. rewrite in_flat_map. intros [k [_ Hv]].
  destruct (JsObject.getOwn k o) as [w|] eqn:E; [|contradiction].
  destruct Hv as [-> | []]. exists k. now apply getOwn_In.
Qed.

Lemma getOwn_setOwn_same {V : Type} (k : string) (v : V) (o : JsObject.t V) :
  JsObject.getOwn k (JsObject.setOwn k v o) = Some v.
Proof.
  induction o as [|[k' v'] o IH]; simpl.
  - now rewrite String.eqb_refl.
  - destruct (String.eqb k k') eqn:E; simpl; rewrite E; [reflexivity | exact IH].
Qed.

Lemma accumulate_filed (seen : list Transaction.t) (people : JsObject.t Person.t)
    (t : Transaction.t) :
  Forall (filedUnderSeenName seen) people ->
  Forall (filedUnderSeenName (seen ++ [t])) (accumulate people t).
Proof.
  intros Hseen.
  assert (Hkey : In (Transaction.name t) (namesOf (seen ++ [t]))).
  { unfold namesOf. rewrite map_app. apply in_or_app. right. now left. }
  assert (Hold : Forall (filedUnderSeenName (seen ++ [t])) people).
  { eapply Forall_impl; [|exact Hseen]. intros kv [Hn Hin]. split; [exact Hn|].
    unfold namesOf in *. rewrite map_app. apply in_or_app. now left. }
  unfold accumulate, JsObject.get.
  destruct (JsObject.getOwn (Transaction.name t) people) as [p|] eqn:E.
  - rewrite E. apply setOwn_Forall; [exact Hold|].
    split; [|exact Hkey]. simpl.
    apply getOwn_In in E. rewrite Forall_forall in Hseen.
    now destruct (Hseen _ E).
  - destruct (JsObject.isPrototypeKey (Transaction.name t)).
    + rewrite E. exact Hold.
    + rewrite getOwn_setOwn_same.
      apply setOwn_Forall; [apply setOwn_Forall; [exact Hold|] |];
        (split; [reflexivity | exact Hkey]).
Qed.

Lemma people_filed (txs : list Transaction.t) :
  Forall (filedUnderSeenName txs) (fold_left accumulate txs JsObject.empty).
Proof.
  induction txs as [|t seen IH] using rev_ind; [constructor|].
  rewrite fold_left_app. simpl. now apply accumulate_filed.
Qed.

Lemma getTopPeople_names (txs : list Transaction.t) (p : Person.t) :
  In p (getTopPeople txs) ->
  exists t, In t txs /\ Transaction.name t = Person.name p.
Proof.
  unfold getTopPeople. rewrite (slice_front 5). intros Hp.
  apply firstn_subset in Hp.
  apply (Permutation_in _ (sort_perm _ _)) in Hp.
  apply values_In in Hp. destruct Hp as [k Hk].
  pose proof (people_filed txs) as Hf. rewrite Forall_forall in Hf.
  destruct (Hf _ Hk) as [Hname Hin]. simpl in *.
  unfold namesOf in Hin. apply in_map_iff in Hin.
  destruct Hin as [t [Ht Hint]]. exists t. split; [exact Hint | congruence].
Qed.

(** C10: a transaction of amount exactly 0 inside the window.  It adds one to
    [transactionCount] and nothing else: both totals and both rankings are
    those of the list without it, and every entry of [topSenders]
    ([topReceivers]) carries the name of an in-window transaction of
    strictly positive (strictly negative) amount. *)
Theorem zero_amount_only_counted
    (subtract : Z -> Moment.unit -> Z) (now : Z)
    (before after : list Transaction.t) (zero : Transaction.t)
    (periodArg : option string) :
  let s := analyzeTransactions subtract now (before ++ zero :: after) periodArg in
  let s' := analyzeTransactions subtract now (before ++ after) periodArg in
  let window := inWindow (startDateOf subtract now (period s)) in
  Transaction.amount zero = 0 ->
  window zero = true ->
  transactionCount s = S (transactionCount s')
  /\ totalSpent s = totalSpent s'
  /\ totalReceived s = totalReceived s'
  /\ netAmount s = netAmount s'
  /\ topSenders s = topSenders s'
  /\ topReceivers s = topReceivers s'
  /\ (forall p, In p (topSenders s) ->
        exists t, In t (before ++ zero :: after) /\ window t = true
                  /\ 0 < Transaction.amount t
                  /\ Transaction.name t = Person.name p)
  /\ (forall p, In p (topReceivers s) ->
        exists t, In t (before ++ zero :: after) /\ window t = true
                  /\ Transaction.amount t < 0
                  /\ Transaction.name t = Person.name p).
Proof.
  intros s s' window Hzero Hin.
  set (period := match periodArg with Some p => p | None => "week" end).
  set (filtered := filteredTransactionsOf subtract now (before ++ zero :: after) period).
  set (filtered' := filteredTransactionsOf subtract now (before ++ after) period).
  assert (Hneg : filter (fun t => Transaction.amount t <? 0) filtered
                 = filter (fun t => Transaction.amount t <? 0) filtered').
  { unfold filtered, filtered', filteredTransactionsOf.
    rewrite !filter_filter. apply filter_middle_out.
    rewrite Hzero. apply andb_false_r. }
  assert (Hpos : filter (fun t => Transaction.amount t >? 0) filtered
                 = filter (fun t => Transaction.amount t >? 0) filtered').
  { unfold filtered, filtered', filteredTransactionsOf.
    rewrite !filter_filter. apply filter_middle_out.
    rewrite Hzero. apply andb_false_r. }
  assert (Hcount : List.length filtered = S (List.length filtered')).
  { unfold filtered, filtered', filteredTransactionsOf.
    change (fun t : Transaction.t =>
              Moment.isAfter (Transaction.timestamp t)
                (startDateOf subtract now period)) with window.
    rewrite (filter_middle_in _ _ _ _ Hin), filter_app, !length_app.
    simpl. lia. }
  assert (Hsource : forall (q : Transaction.t -> bool) p,
             In p (getTopPeople (filter q filtered)) ->
             exists t, In t (before ++ zero :: after) /\ window t = true
                       /\ q t = true /\ Transaction.name t = Person.name p).
  { intros q p Hp. apply getTopPeople_names in Hp. destruct Hp as [t [Ht Hname]].
    apply filter_In in Ht. destruct Ht as [Ht Hq].
    unfold filtered, filteredTransactionsOf in Ht. apply filter_In in Ht.
    destruct Ht as [Ht Hw]. exists t. repeat split; assumption. }
  unfold s, s', analyzeTransactions.
  fold period. fold filtered. fold filtered'.
  cbn [transactionCount totalSpent totalReceived netAmount topSenders topReceivers].
  rewrite Hneg, Hpos.
  split; [exact Hcount|].
  do 5 (split; [reflexivity|]).
  split.
  - intros p Hp. rewrite <- Hpos in Hp.
    destruct (Hsource _ _ Hp) as [t [Ht [Hw [Hq Hname]]]].
    exists t. repeat split; try assumption. apply Z.gtb_lt in Hq. lia.
  - intros p Hp. rewrite <- Hneg in Hp.
    destruct (Hsource _ _ Hp) as [t [Ht [Hw [Hq Hname]]]].
    exists t. repeat split; try assumption. now apply Z.ltb_lt in Hq.
Qed.

(** A zero-amount transaction between a payment and a receipt. *)
Lemma zero_amount_only_counted_witness :
  transactionCount
    (analyzeTransactions Moment.utcSubtract 1700007200000
       ([tx 1700000000000 (-50) "Bob"] ++ tx 1700001000000 0 "Carol"
          :: [tx 1700003600000 200 "Alice"]) (Some "week"))
  = S (transactionCount
         (analyzeTransactions Moment.utcSubtract 1700007200000
            ([tx 1700000000000 (-50) "Bob"] ++ [tx 1700003600000 200 "Alice"])
            (Some "week"))).
Proof.
  apply (zero_amount_only_counted Moment.utcSubtract 1700007200000
           [tx 1700000000000 (-50) "Bob"] [tx 1700003600000 200 "Alice"]
           (tx 1700001000000 0 "Carol") (Some "week")); reflexivity.
Defined.

(* ------------------------------------------------------------------ *)
(** ** Substrings *)

Lemma prefix_app (p s : string) :
  String.prefix p s = true <-> exists rest, s = (p ++ rest)%string.
Proof.
  revert s. induction p as [|c p IH]; intros [|d s]; simpl.
  - split; [now exists EmptyString | reflexivity].
  - split; [now exists (String d s) | reflexivity].
  - split; [discriminate | intros [rest H]; discriminate].
  - destruct (Ascii.ascii_dec c d) as [-> | Hne].
    + rewrite IH. split; intros [rest H]; exists rest; congruence.
    + split; [discriminate | intros [rest H]; congruence].
Qed.

Lemma includes_app (s search : string) :
  JsString.includes s search = true
  <-> exists before after, s = (before ++ search ++ after)%string.
Proof.
  induction s as [|c s IH]; cbn [JsString.includes].
  - rewrite orb_false_r, prefix_app. split.
    + intros [rest H]. now exists EmptyString, rest.
    + intros [[|b before] [after H]]; [now exists after | discriminate].
  - rewrite orb_true_iff, prefix_app, IH. split.
    + intros [[rest H] | [before [after H]]].
      * now exists EmptyString, rest.
      * exists (String c before), after. simpl. now rewrite H.
    + intros [[|b before] [after H]].
      * left. now exists after.
      * right. simpl in H. exists before, after. congruence.
Qed.

(** C6: the classifier.  [requiresTransactionData] answers true exactly when
    one of the twenty keywords occurs as a substring of the lower-cased
    message; two messages that differ only in letter case are classified
    alike; the empty message and ["Hello, how are you?"] are not flagged,
    ["What's my BALANCE?"] is. *)
Theorem requiresTransactionData_keywords (message : string) :
  (requiresTransactionData message = true
   <-> exists keyword before after,
         In keyword
            [ "balance"; "spend"; "spent"; "expense"; "income"; "receive";
              "received"; "transaction"; "money"; "payment"; "transfer";
              "budget"; "financial"; "analysis"; "summary"; "total"; "amount";
              "cost"; "price"; "bill" ]
         /\ JsString.toLowerCase message = (before ++ keyword ++ after)%string)
  /\ (forall other,
         JsString.toLowerCase other = JsString.toLowerCase message ->
         requiresTransactionData other = requiresTransactionData message)
  /\ requiresTransactionData "" = false
  /\ requiresTransactionData "What's my BALANCE?" = true
  /\ requiresTransactionData "Hello, how are you?" = false.
Proof.
  split.
  { unfold requiresTransactionData, JsArray.some.
    rewrite existsb_exists. split.
    - intros [keyword [Hin Hinc]]. apply includes_app in Hinc.
      destruct Hinc as [before [after H]]. now exists keyword, before, after.
    - intros [keyword [before [after [Hin H]]]]. exists keyword.
      split; [exact Hin|]. apply includes_app. now exists before, after. }
  split.
  { intros other H. unfold requiresTransactionData. now rewrite H. }
  repeat split; reflexivity.
Qed.

(** Letter case does not change the classification. *)
Lemma requiresTransactionData_keywords_witness :
  requiresTransactionData "what's my balance?"
  = requiresTransactionData "What's my BALANCE?".
Proof.
  destruct (requiresTransactionData_keywords "What's my BALANCE?") as [_ [H _]].
  apply H. reflexivity.
Defined.

(* ------------------------------------------------------------------ *)
(** ** The response router *)

Section RouterFacts.
Variable subtract : Z -> Moment.unit -> Z.
Variable now : Z.
Variable GEMINI_API_URL GEMINI_API_KEY : option string.
Variable post : GenRequest -> AxiosOutcome.
Variable hostPrompt : option Json.


(** The gate of lines 96-99. *)
Lemma gate_returns_null (message : string)
    (userTransactions : option (list Transaction.t)) :
  requiresTransactionData message = true ->
  noTransactions userTransactions = true ->
  generateChatResponse subtract now GEMINI_API_URL GEMINI_API_KEY post hostPrompt
      message userTransactions = (JNull, []).
Proof.
  intros Hreq Hnone. unfold generateChatResponse, tryBlock, chooseContext.
  now rewrite Hreq, Hnone.
Qed.

(** The request, when one is sent, carries what the host binds to [prompt]. *)
Lemma sent_text_is_host_value (message : string)
    (userTransactions : option (list Transaction.t)) (request : GenRequest) :
  In request (snd (generateChatResponse subtract now GEMINI_API_URL GEMINI_API_KEY post hostPrompt
      message userTransactions)) ->
  exists v, hostPrompt = Some v /\ text request = VHost v.
Proof.
  unfold generateChatResponse, tryBlock, resolvePrompt.
  destruct (chooseContext subtract now message userTransactions) as [v|scope];
    [intros []|].
  destruct hostPrompt as [v|]; [|intros []].
  match goal with
  | |- context [post ?r] => set (req := r); destruct (post req) as [|data]
  end.
  - intros [<- | []]. now exists v.
  - destruct (responseText data); intros [<- | []]; now exists v.
Qed.


End RouterFacts.

(** C1: when the classifier flags the message and the transactions are
    absent or an empty sequence, the result is [null] (the refusal) and no
    request reaches the generator, whatever the message, the generator and
    the host are. *)
Theorem refusal_without_transactions
    (subtract : Z -> Moment.unit -> Z) (now : Z)
    (GEMINI_API_URL GEMINI_API_KEY : option string)
    (post : GenRequest -> AxiosOutcome) (hostPrompt : option Json)
    (message : string) (userTransactions : option (list Transaction.t)) :
  requiresTransactionData message = true ->
  userTransactions = None \/ userTransactions = Some [] ->
  generateChatResponse subtract now GEMINI_API_URL GEMINI_API_KEY post hostPrompt
    message userTransactions
  = (JNull, []).
Proof.
  intros Hreq Hnone. apply gate_returns_null; [exact Hreq|].
  destruct Hnone as [-> | ->]; reflexivity.
Qed.

(** A flagged question with an empty transaction array, on a host and with a
    generator that would both answer. *)
Lemma refusal_without_transactions_witness :
  generateChatResponse Moment.utcSubtract 1700000000000 None None
    (fun _ => Fulfilled (textResponse "You spent 50.")) (Some (JStr "host"))
    "How much did I spend this month?" (Some [])
  = (JNull, []).
Proof.
  apply refusal_without_transactions; [reflexivity | right; reflexivity].
Defined.

(** C2 (as stated) fails: the message contains the keyword [budget], so the
    classifier flags it and no environment gives an ungrounded answer. *)
Lemma budgeting_tip_is_flagged :
  requiresTransactionData "Give me a budgeting tip" = true
  /\ ~ exists subtract now apiUrl apiKey post hostPrompt,
         UngroundedAnswer subtract now apiUrl apiKey post hostPrompt
           "Give me a budgeting tip" None.
Proof.
  split; [reflexivity|].
  intros [subtract [now [apiUrl [apiKey [post [hostPrompt [H _]]]]]]].
  vm_compute in H. discriminate.
Qed.

(** C2 (amended): for the message ["Give me a budgeting tip"] with no
    transactions supplied, the classifier returns true ([budget] is a
    substring of [budgeting]) and the result is the refusal [null], with no
    request sent to the generator. *)
Theorem budgeting_tip_refused
    (subtract : Z -> Moment.unit -> Z) (now : Z)
    (GEMINI_API_URL GEMINI_API_KEY : option string)
    (post : GenRequest -> AxiosOutcome) (hostPrompt : option Json) :
  requiresTransactionData "Give me a budgeting tip" = true
  /\ JsString.includes (JsString.toLowerCase "Give me a budgeting tip") "budget"
     = true
  /\ generateChatResponse subtract now GEMINI_API_URL GEMINI_API_KEY post
       hostPrompt "Give me a budgeting tip" None
     = (JNull, []).
Proof.
  split; [reflexivity|]. split; [reflexivity|].
  apply gate_returns_null; reflexivity.
Qed.



(** C8: the grounded branch builds the context the claim describes -- the
    analysis of the supplied transactions over the default period [week] and
    the last ten transactions -- but the [const prompt] that holds it is
    scoped to the branch: on a host without a global [prompt] the function
    returns [null] without any request, and on any host no request ever
    carries a prompt built by the function. *)
Theorem grounded_prompt_never_sent
    (subtract : Z -> Moment.unit -> Z) (now : Z)
    (GEMINI_API_URL GEMINI_API_KEY : option string)
    (post : GenRequest -> AxiosOutcome)
    (message : string) (txs : list Transaction.t) :
  requiresTransactionData message = true ->
  txs <> [] ->
  chooseContext subtract now message (Some txs)
  = FallThrough
      [("prompt",
        VPrompt (GroundedPrompt message
                   (analyzeTransactions subtract now txs (Some "week"))
                   (lastN 10 txs)))]
  /\ generateChatResponse subtract now GEMINI_API_URL GEMINI_API_KEY post None
       message (Some txs)
     = (JNull, [])
  /\ forall hostPrompt request,
       In request
          (snd (generateChatResponse subtract now GEMINI_API_URL GEMINI_API_KEY
                  post hostPrompt message (Some txs))) ->
       forall p, text request <> VPrompt p.
Proof.
  intros Hreq Hne.
  assert (Hsome : noTransactions (Some txs) = false).
  { destruct txs; [contradiction | reflexivity]. }
  assert (Hctx : chooseContext subtract now message (Some txs)
                 = FallThrough
                     [("prompt",
                       VPrompt (GroundedPrompt message
                                  (analyzeTransactions subtract now txs (Some "week"))
                                  (lastN 10 txs)))]).
  { unfold chooseContext. rewrite Hreq, Hsome.
    rewrite <- (slice_tail 10 txs) by lia. reflexivity. }
  split; [exact Hctx|]. split.
  - unfold generateChatResponse, tryBlock. now rewrite Hctx.
  - intros hostPrompt request Hin p Htext.
    apply sent_text_is_host_value in Hin. destruct Hin as [v [_ Hv]].
    congruence.
Qed.

(** A flagged question with one transaction under Node.js: no request, [null]. *)
Lemma grounded_prompt_never_sent_witness :
  generateChatResponse Moment.utcSubtract 1700007200000 None None
    (fun _ => Fulfilled (textResponse "You spent 50.")) None
    "What is my balance?" (Some [tx 1700000000000 (-50) "Bob"])
  = (JNull, []).
Proof.
  apply (grounded_prompt_never_sent Moment.utcSubtract 1700007200000 None None
           (fun _ => Fulfilled (textResponse "You spent 50."))
           "What is my balance?" [tx 1700000000000 (-50) "Bob"]).
  - reflexivity.
  - discriminate.
Defined.

(* ------------------------------------------------------------------ *)
(** ** The model on concrete inputs *)

(** 2024-03-31T12:00Z less one month is 2024-02-29T12:00Z; 2024-02-29T12:00Z
    less one year is 2023-02-28T12:00Z; 2024-01-01T00:00Z less one month is
    2023-12-01T00:00Z. *)
Example utcSubtract_clamps_day_of_month :
  Moment.utcSubtract 1711886400000 Moment.Month = 1709208000000
  /\ Moment.utcSubtract 1709208000000 Moment.Year = 1677585600000
  /\ Moment.utcSubtract 1704067200000 Moment.Month = 1701388800000.
Proof. repeat split; reflexivity. Qed.

Example arrayIndex_canonical :
  JsObject.arrayIndex "0" = Some 0%N
  /\ JsObject.arrayIndex "42" = Some 42%N
  /\ JsObject.arrayIndex "042" = None
  /\ JsObject.arrayIndex "4294967294" = Some 4294967294%N
  /\ JsObject.arrayIndex "4294967295" = None
  /\ JsObject.arrayIndex "Bob" = None.
Proof. repeat split; reflexivity. Qed.

(** A name that [{}] inherits gets no entry: [people.constructor] is truthy
    before the loop starts, so line 70 is skipped and lines 72-73 write to
    the inherited function. *)
Example getTopPeople_inherited_name :
  getTopPeople [tx 0 5 "constructor"; tx 0 (-7) "Bob"] = [Person.mk "Bob" 7 1].
Proof. reflexivity. Qed.

Example getTopPeople_keeps_five :
  getTopPeople
    [tx 0 1 "a"; tx 0 6 "b"; tx 0 3 "c"; tx 0 (-6) "d"; tx 0 2 "e"; tx 0 9 "f";
     tx 0 2 "a"]
  = [Person.mk "f" 9 1; Person.mk "b" 6 1; Person.mk "d" 6 1;
     Person.mk "a" 3 2; Person.mk "c" 3 1].
Proof. reflexivity. Qed.

Example responseText_shapes :
  responseText (textResponse "hi") = Ok (JStr "hi")
  /\ responseText (JObj [("error", JStr "quota")]) = Throw TypeError
  /\ responseText (JObj [("candidates", JArr [])]) = Throw TypeError
  /\ responseText (JObj [("candidates", JArr [JObj [("finishReason", JStr "SAFETY")]])])
     = Throw TypeError
  /\ responseText JNull = Throw TypeError
  /\ responseText
       (JObj [("candidates",
               JArr [JObj [("content", JObj [("parts", JArr [JObj []])])]])])
     = Ok JUndefined.
Proof. repeat split; reflexivity. Qed.

(** Without a global [prompt] the reference at line 120 throws before the
    request is made, whatever branch was taken. *)
Lemma no_global_prompt_always_null
    (subtract : Z -> Moment.unit -> Z) (now : Z)
    (GEMINI_API_URL GEMINI_API_KEY : option string)
    (post : GenRequest -> AxiosOutcome)
    (message : string) (userTransactions : option (list Transaction.t)) :
  generateChatResponse subtract now GEMINI_API_URL GEMINI_API_KEY post None
    message userTransactions
  = (JNull, []).
Proof.
  unfold generateChatResponse, tryBlock, resolvePrompt, chooseContext.
  destruct (requiresTransactionData message); [|reflexivity].
  destruct (noTransactions userTransactions); reflexivity.
Qed.

(* ------------------------------------------------------------------ *)
(** ** [getTopPeople] on arbitrary names *)

Lemma setOwn_ordinaryKeys {V : Type} (k : string) (v : V) (o : JsObject.t V) :
  JsObject.isPrototypeKey k = false -> ordinaryKeys o ->
  ordinaryKeys (JsObject.setOwn k v o).
Proof.
  intros Hk Ho. apply setOwn_Forall; assumption.
Qed.

Lemma getOwn_prototype_key {V : Type} (k : string) (o : JsObject.t V) :
  JsObject.isPrototypeKey k = true -> ordinaryKeys o -> JsObject.getOwn k o = None.
Proof.
  intros Hk Ho. destruct (JsObject.getOwn k o) as [v|] eqn:E; [|reflexivity].
  apply getOwn_In in E. unfold ordinaryKeys in Ho. rewrite Forall_forall in Ho.
  specialize (Ho _ E). simpl in Ho. congruence.
Qed.





















(* ------------------------------------------------------------------ *)
(** ** What the groups add up to *)




Lemma Zsum_filter_le {A : Type} (f : A -> Z) (p : A -> bool) (l : list A) :
  (forall x, 0 <= f x) -> Zsum (map f (filter p l)) <= Zsum (map f l).
Proof.
  intros Hf. induction l as [|x l IH]; simpl; [lia|].
  specialize (Hf x). destruct (p x); simpl; lia.
Qed.










Lemma length_filter_le {A : Type} (p : A -> bool) (l : list A) :
  (List.length (filter p l) <= List.length l)%nat.
Proof.
  induction l as [|x l IH]; simpl; [lia|]. destruct (p x); simpl; lia.
Qed.






(* ------------------------------------------------------------------ *)
(** ** More on the summary *)

Lemma abs_on_positive (l : list Transaction.t) :
  map Transaction.amount (filter (fun t => Transaction.amount t >? 0) l)
  = map absAmount (filter (fun t => Transaction.amount t >? 0) l).
Proof.
  apply map_ext_in. intros t Ht. apply filter_In in Ht. destruct Ht as [_ Ht].
  apply Z.gtb_lt in Ht. unfold absAmount. lia.
Qed.

Section SummaryFacts.
Variable subtract : Z -> Moment.unit -> Z.
Variable now : Z.

Lemma totalSpent_filtered (txs : list Transaction.t) (p : string) :
  totalSpent (analyzeTransactions subtract now txs (Some p))
  = Zsum (map absAmount
            (filter (fun t => Transaction.amount t <? 0)
                    (filteredTransactionsOf subtract now txs p))).
Proof.
  unfold analyzeTransactions. cbn [totalSpent]. now rewrite reduce_sum.
Qed.

Lemma totalReceived_filtered (txs : list Transaction.t) (p : string) :
  totalReceived (analyzeTransactions subtract now txs (Some p))
  = Zsum (map absAmount
            (filter (fun t => Transaction.amount t >? 0)
                    (filteredTransactionsOf subtract now txs p))).
Proof.
  unfold analyzeTransactions. cbn [totalReceived].
  now rewrite reduce_sum, abs_on_positive.
Qed.

End SummaryFacts.




(** X6: an empty window.  When no transaction is strictly after the start of
    the window -- in particular for the empty list -- the summary has zero
    totals, zero count and empty rankings. *)
Theorem analysis_of_empty_window
    (subtract : Z -> Moment.unit -> Z) (now : Z)
    (txs : list Transaction.t) (periodArg : option string) :
  let period := match periodArg with Some p => p | None => "week" end in
  (forall t, In t txs ->
             Transaction.timestamp t <= startDateOf subtract now period) ->
  analyzeTransactions subtract now txs periodArg
  = {| period := period; totalSpent := 0; totalReceived := 0; netAmount := 0;
       transactionCount := 0; topSenders := []; topReceivers := [] |}.
Proof.
  intros period Hout.
  assert (Hnone : filteredTransactionsOf subtract now txs period = []).
  { unfold filteredTransactionsOf. apply filter_none, Forall_forall.
    intros t Ht. unfold Moment.isAfter. apply Z.ltb_ge. now apply Hout. }
  unfold analyzeTransactions. fold period. rewrite Hnone. reflexivity.
Qed.

Lemma analysis_of_empty_window_witness :
  analyzeTransactions Moment.utcSubtract 1700000000000
    [tx 1600000000000 (-50) "Bob"; tx 1699395200000 200 "Alice"] (Some "week")
  = {| period := "week"; totalSpent := 0; totalReceived := 0; netAmount := 0;
       transactionCount := 0; topSenders := []; topReceivers := [] |}.
Proof.
  apply (analysis_of_empty_window Moment.utcSubtract 1700000000000
           [tx 1600000000000 (-50) "Bob"; tx 1699395200000 200 "Alice"]
           (Some "week")).
  intros t [<- | [<- | []]]; vm_compute; discriminate.
Defined.

Lemma filter_narrow {A : Type} (p q : A -> bool) (l : list A) :
  (forall x, p x = true -> q x = true) ->
  filter p l = filter p (filter q l).
Proof.
  intros H. rewrite filter_filter. apply filter_ext_in. intros x _.
  specialize (H x). destruct (p x), (q x); try reflexivity.
  discriminate (H eq_refl).
Qed.

(** X7: a longer lookback never sees less.  If the window of period [p1]
    opens no later than the window of [p2], then under [p1] the transaction
    count, the total spent and the total received are at least what they are
    under [p2]. *)
Theorem longer_lookback_sees_more
    (subtract : Z -> Moment.unit -> Z) (now : Z)
    (txs : list Transaction.t) (p1 p2 : string) :
  startDateOf subtract now p1 <= startDateOf subtract now p2 ->
  let wide := analyzeTransactions subtract now txs (Some p1) in
  let narrow := analyzeTransactions subtract now txs (Some p2) in
  (transactionCount narrow <= transactionCount wide)%nat
  /\ totalSpent narrow <= totalSpent wide
  /\ totalReceived narrow <= totalReceived wide.
Proof.
  intros Hstart wide narrow.
  set (w1 := fun t => Moment.isAfter (Transaction.timestamp t)
                        (startDateOf subtract now p1)).
  set (w2 := fun t => Moment.isAfter (Transaction.timestamp t)
                        (startDateOf subtract now p2)).
  assert (Hnarrow : filteredTransactionsOf subtract now txs p2
                    = filter w2 (filteredTransactionsOf subtract now txs p1)).
  { unfold filteredTransactionsOf. fold w1 w2. apply filter_narrow.
    intros t. unfold w1, w2, Moment.isAfter. rewrite !Z.ltb_lt. lia. }
  unfold wide, narrow.
  rewrite !totalSpent_filtered, !totalReceived_filtered, Hnarrow.
  unfold analyzeTransactions. cbn [transactionCount]. rewrite Hnarrow.
  set (seen := filteredTransactionsOf subtract now txs p1).
  assert (Hswap : forall q : Transaction.t -> bool,
             filter q (filter w2 seen) = filter w2 (filter q seen)).
  { intros q. rewrite !filter_filter. apply filter_ext. intros t. apply andb_comm. }
  split; [apply length_filter_le|].
  split; rewrite Hswap; apply Zsum_filter_le; intros t; apply Z.abs_nonneg.
Qed.

Lemma longer_lookback_sees_more_witness :
  (transactionCount
     (analyzeTransactions Moment.utcSubtract 1700000000000
        [tx 1699900000000 (-50) "Bob"; tx 1699990000000 200 "Alice"] (Some "day"))
   <= transactionCount
        (analyzeTransactions Moment.utcSubtract 1700000000000
           [tx 1699900000000 (-50) "Bob"; tx 1699990000000 200 "Alice"]
           (Some "week")))%nat.
Proof.
  apply (longer_lookback_sees_more Moment.utcSubtract 1700000000000
           [tx 1699900000000 (-50) "Bob"; tx 1699990000000 200 "Alice"]
           "week" "day").
  vm_compute. discriminate.
Defined.








(* ------------------------------------------------------------------ *)
(** ** Identifiers *)

Lemma to_int_not_nil (z : Z) : Z.to_int z <> Decimal.Pos Decimal.Nil
                               /\ Z.to_int z <> Decimal.Neg Decimal.Nil.
Proof.
  destruct z as [|p|p]; simpl; split; try discriminate;
    intros [= H]; now apply (DecimalPos.Unsigned.to_uint_nonnil p).
Qed.

Lemma decimal_injective (a b : Z) : decimal a = decimal b -> a = b.
Proof.
  unfold decimal. intros H.
  apply DecimalZ.to_int_inj.
  destruct (to_int_not_nil a) as [Ha1 Ha2], (to_int_not_nil b) as [Hb1 Hb2].
  pose proof (DecimalString.NilZero.isi _ Ha1 Ha2) as Ia.
  pose proof (DecimalString.NilZero.isi _ Hb1 Hb2) as Ib.
  rewrite H in Ia. congruence.
Qed.

Lemma decimal_ordinary (z : Z) : JsObject.isPrototypeKey (decimal z) = false.
Proof.
  unfold decimal. destruct (Z.to_int z) as [d | d]; [|reflexivity].
  destruct d; reflexivity.
Qed.

(* ------------------------------------------------------------------ *)
(** ** The store under the handlers *)

Lemma getOwn_setOwn_other {V : Type} (k k' : string) (v : V) (o : JsObject.t V) :
  k <> k' -> JsObject.getOwn k (JsObject.setOwn k' v o) = JsObject.getOwn k o.
Proof.
  intros Hne. induction o as [|[k0 v0] o IH]; simpl.
  - destruct (String.eqb_spec k k'); [contradiction | reflexivity].
  - destruct (String.eqb_spec k' k0) as [-> | Hk0]; simpl.
    + destruct (String.eqb_spec k k0); [contradiction | reflexivity].
    + destruct (String.eqb k k0); [reflexivity | exact IH].
Qed.

Lemma setOwn_setOwn {V : Type} (k : string) (v w : V) (o : JsObject.t V) :
  JsObject.setOwn k v (JsObject.setOwn k w o) = JsObject.setOwn k v o.
Proof.
  induction o as [|[k0 v0] o IH]; simpl.
  - now rewrite String.eqb_refl.
  - destruct (String.eqb k k0) eqn:E; simpl; rewrite E; [reflexivity|].
    now rewrite IH.
Qed.

Lemma get_setOwn_same {V : Type} (k : string) (v : V) (o : JsObject.t V) :
  JsObject.get k (JsObject.setOwn k v o) = JsObject.OwnProperty v.
Proof.
  unfold JsObject.get. now rewrite getOwn_setOwn_same.
Qed.

Lemma get_setOwn_other {V : Type} (k k' : string) (v : V) (o : JsObject.t V) :
  k <> k' -> JsObject.get k (JsObject.setOwn k' v o) = JsObject.get k o.
Proof.
  intros H. unfold JsObject.get. now rewrite getOwn_setOwn_other.
Qed.

Section HandlerFacts.
Variable subtract : Z -> Moment.unit -> Z.
Variable toISOString formatTime : Z -> string.
Variable GEMINI_API_URL GEMINI_API_KEY : option string.
Variable post : GenRequest -> AxiosOutcome.
Variable hostPrompt : option Json.

(** With both fields present and an [id] that does not resolve to an
    inherited member, the handler files the user message, asks for a
    response and branches on it. *)
Lemma sendMessage_filed (clock : SendClock) (id : string)
    (messageField userIdField : option string)
    (transactions : option (list Transaction.t)) (store : Store) :
  truthy messageField = true -> truthy userIdField = true ->
  JsObject.get id (messages store) <> JsObject.PrototypeMember ->
  let message := fieldText messageField in
  let userMessage := userMessageOf toISOString formatTime clock message in
  let answer :=
    generateChatResponse subtract (atAnalysis clock) GEMINI_API_URL
      GEMINI_API_KEY post hostPrompt message transactions in
  let aiMessage := aiMessageOf toISOString formatTime clock (fst answer) in
  sendMessage subtract toISOString formatTime GEMINI_API_URL GEMINI_API_KEY post
    hostPrompt clock id messageField userIdField transactions store
  = if isNull (fst answer) then
      (mkResponse 400 (ErrorBody refusalText),
       mkStore (conversations store)
         (JsObject.setOwn id (storedAt id store ++ [userMessage]) (messages store)),
       snd answer)
    else
      (mkResponse 200 (ExchangeBody userMessage aiMessage),
       mkStore
         (touchConversation id message (toISOString (atLastMessageTime clock))
            (conversations store))
         (JsObject.setOwn id (storedAt id store ++ [userMessage; aiMessage])
            (messages store)),
       snd answer).
Proof.
  intros Hm Hu Hid message userMessage answer aiMessage.
  unfold sendMessage. rewrite Hm, Hu. cbn [negb orb].
  fold message. fold (userMessageOf toISOString formatTime clock message).
  fold userMessage. fold answer.
  unfold storedAt. unfold JsObject.get in *.
  destruct (JsObject.getOwn id (messages store)) as [stored|] eqn:E.
  - rewrite E. destruct answer as [r sent]. cbn [fst snd].
    rewrite setOwn_setOwn, <- app_assoc.
    destruct r; reflexivity.
  - destruct (JsObject.isPrototypeKey id); [contradiction|].
    rewrite getOwn_setOwn_same. destruct answer as [r sent]. cbn [fst snd].
    rewrite !setOwn_setOwn, <- app_assoc.
    destruct r; reflexivity.
Qed.

End HandlerFacts.

Lemma truthy_text (field : option string) :
  truthy field = true -> fieldText field <> "".
Proof.
  destruct field as [s|]; simpl; [|discriminate].
  destruct (String.eqb_spec s ""); [discriminate | auto].
Qed.

Lemma touchConversation_ids (id message stamp : string) (cs : list Conversation.t) :
  map Conversation.id (touchConversation id message stamp cs)
  = map Conversation.id cs.
Proof.
  induction cs as [|c cs IH]; simpl; [reflexivity|].
  destruct (String.eqb (Conversation.id c) id); simpl; [reflexivity|].
  now rewrite IH.
Qed.


(** X10: creating a conversation, then reading it back.  The handler
    answers 200 with a conversation whose id is the decimal form of the
    clock reading and whose title is never empty; afterwards the list of
    conversations ends with it, its message list reads as empty -- whatever
    was filed under that id before -- and the message list of every other id
    reads as it did. *)
Theorem createConversation_round_trip
    (toISOString : Z -> string) (clock : CreateClock)
    (titleField userIdField : option string) (store : Store) :
  exists c,
    let store' :=
      snd (createConversation toISOString clock titleField userIdField store) in
    fst (createConversation toISOString clock titleField userIdField store)
    = mkResponse 200 (ConversationBody c)
    /\ Conversation.id c = decimal (atConversationId clock)
    /\ Conversation.title c <> ""
    /\ listConversations store'
       = mkResponse 200 (ConversationsBody (conversations store ++ [c]))
    /\ getMessages (Conversation.id c) store'
       = mkResponse 200 (MessagesBody (MessageList []))
    /\ forall other, other <> Conversation.id c ->
                     getMessages other store' = getMessages other store.
Proof.
  eexists. cbn zeta. unfold createConversation. cbn [fst snd].
  split; [reflexivity|]. cbn [Conversation.id Conversation.title].
  split; [reflexivity|]. split.
  { destruct (truthy titleField) eqn:E; [now apply truthy_text | discriminate]. }
  split; [reflexivity|]. split.
  - unfold getMessages. cbn [messages]. now rewrite get_setOwn_same.
  - intros other Hne. unfold getMessages. cbn [messages].
    now rewrite get_setOwn_other.
Qed.

(** X11: conversation ids are as unique as the clock.  Two creations answer
    with conversations that have the same id exactly when their
    [Date.now()] readings coincide, whatever the stores and the other
    fields are. *)
Theorem conversation_ids_follow_the_clock
    (toISOString : Z -> string) (clock1 clock2 : CreateClock)
    (title1 userId1 title2 userId2 : option string) (store1 store2 : Store) :
  exists c1 c2,
    fst (createConversation toISOString clock1 title1 userId1 store1)
    = mkResponse 200 (ConversationBody c1)
    /\ fst (createConversation toISOString clock2 title2 userId2 store2)
       = mkResponse 200 (ConversationBody c2)
    /\ (Conversation.id c1 = Conversation.id c2
        <-> atConversationId clock1 = atConversationId clock2).
Proof.
  do 2 eexists. unfold createConversation. cbn [fst].
  split; [reflexivity|]. split; [reflexivity|]. cbn [Conversation.id].
  split; [apply decimal_injective | now intros ->].
Qed.

Section SendFacts.
Variable subtract : Z -> Moment.unit -> Z.
Variable toISOString formatTime : Z -> string.
Variable GEMINI_API_URL GEMINI_API_KEY : option string.
Variable hostPrompt : option Json.

(** What [sendMessage] can do to the store. *)
Lemma sendMessage_store_cases (post : GenRequest -> AxiosOutcome)
    (clock : SendClock) (id : string)
    (messageField userIdField : option string)
    (transactions : option (list Transaction.t)) (store : Store) :
  let result :=
    sendMessage subtract toISOString formatTime GEMINI_API_URL GEMINI_API_KEY
      post hostPrompt clock id messageField userIdField transactions store in
  let message := fieldText messageField in
  let userMessage := userMessageOf toISOString formatTime clock message in
  let answer :=
    generateChatResponse subtract (atAnalysis clock) GEMINI_API_URL
      GEMINI_API_KEY post hostPrompt message transactions in
  let aiMessage := aiMessageOf toISOString formatTime clock (fst answer) in
  (snd (fst result) = store /\ snd result = []
   /\ (truthy messageField = false \/ truthy userIdField = false
       \/ JsObject.get id (messages store) = JsObject.PrototypeMember))
  \/ (truthy messageField = true
      /\ truthy userIdField = true
      /\ JsObject.get id (messages store) <> JsObject.PrototypeMember
      /\ snd result = snd answer
      /\ ((isNull (fst answer) = true
           /\ snd (fst result)
              = mkStore (conversations store)
                  (JsObject.setOwn id (storedAt id store ++ [userMessage])
                     (messages store)))
          \/ (isNull (fst answer) = false
              /\ snd (fst result)
                 = mkStore
                     (touchConversation id message
                        (toISOString (atLastMessageTime clock))
                        (conversations store))
                     (JsObject.setOwn id
                        (storedAt id store ++ [userMessage; aiMessage])
                        (messages store))))).
Proof.
  intros result message userMessage answer aiMessage.
  destruct (truthy messageField) eqn:Hm;
    [|left; unfold result, sendMessage; rewrite Hm; cbn; auto].
  destruct (truthy userIdField) eqn:Hu;
    [|left; unfold result, sendMessage; rewrite Hm, Hu; cbn; auto].
  destruct (JsObject.get id (messages store)) eqn:Hget.
  - right. split; [reflexivity|]. split; [reflexivity|]. split; [discriminate|].
    assert (Hid : JsObject.get id (messages store) <> JsObject.PrototypeMember)
      by (rewrite Hget; discriminate).
    unfold result.
    rewrite (sendMessage_filed _ _ _ _ _ _ _ _ _ _ _ _ _ Hm Hu Hid).
    fold message userMessage answer aiMessage.
    destruct (isNull (fst answer)); (split; [reflexivity|]);
      [left | right]; split; reflexivity.
  - left. unfold result, sendMessage. rewrite Hm, Hu, Hget. cbn [negb orb].
    rewrite Hget. cbn [fst snd]. destruct store; auto.
  - right. split; [reflexivity|]. split; [reflexivity|]. split; [discriminate|].
    assert (Hid : JsObject.get id (messages store) <> JsObject.PrototypeMember)
      by (rewrite Hget; discriminate).
    unfold result.
    rewrite (sendMessage_filed _ _ _ _ _ _ _ _ _ _ _ _ _ Hm Hu Hid).
    fold message userMessage answer aiMessage.
    destruct (isNull (fst answer)); (split; [reflexivity|]);
      [left | right]; split; reflexivity.
Qed.

End SendFacts.

(** X12: a question without an answer still enters the store.  When both
    fields are present, [id] does not resolve to an inherited member and
    [generateChatResponse] returns [null], the handler answers 400 with the
    "requires transaction data" error, yet the user message is appended to
    the messages of [id] and is what a later read returns; the conversations
    are untouched. *)
Theorem unanswered_question_is_stored
    (subtract : Z -> Moment.unit -> Z) (toISOString formatTime : Z -> string)
    (GEMINI_API_URL GEMINI_API_KEY : option string)
    (post : GenRequest -> AxiosOutcome) (hostPrompt : option Json)
    (clock : SendClock) (id : string) (messageField userIdField : option string)
    (transactions : option (list Transaction.t)) (store : Store) :
  truthy messageField = true -> truthy userIdField = true ->
  JsObject.get id (messages store) <> JsObject.PrototypeMember ->
  fst (generateChatResponse subtract (atAnalysis clock) GEMINI_API_URL
         GEMINI_API_KEY post hostPrompt (fieldText messageField) transactions)
  = JNull ->
  let result :=
    sendMessage subtract toISOString formatTime GEMINI_API_URL GEMINI_API_KEY
      post hostPrompt clock id messageField userIdField transactions store in
  let userMessage :=
    userMessageOf toISOString formatTime clock (fieldText messageField) in
  fst (fst result) = mkResponse 400 (ErrorBody refusalText)
  /\ getMessages id (snd (fst result))
     = mkResponse 200
         (MessagesBody (MessageList (storedAt id store ++ [userMessage])))
  /\ conversations (snd (fst result)) = conversations store.
Proof.
  intros Hm Hu Hid Hnull result userMessage. unfold result.
  rewrite (sendMessage_filed _ _ _ _ _ _ _ _ _ _ _ _ _ Hm Hu Hid).
  rewrite Hnull. cbn [isNull fst snd conversations].
  split; [reflexivity|]. split; [|reflexivity].
  unfold getMessages. cbn [messages]. now rewrite get_setOwn_same.
Qed.

Lemma unanswered_question_is_stored_witness :
  getMessages "1700000000000"
    (snd (fst (sendMessage Moment.utcSubtract decimal decimal None None
                 (fun _ => Rejected) None
                 (mkSendClock 1700000000001 1700000000002 1700000000003
                    1700000000004 1700000000005 1700000000006 1700000000007
                    1700000000008)
                 "1700000000000" (Some "What is my balance?") (Some "u1") None
                 emptyStore)))
  = mkResponse 200
      (MessagesBody
         (MessageList
            [Message.mk "1700000000001" (JStr "What is my balance?") true
               "1700000000002" "1700000000003"])).
Proof.
  apply (unanswered_question_is_stored Moment.utcSubtract decimal decimal None
           None (fun _ => Rejected) None
           (mkSendClock 1700000000001 1700000000002 1700000000003 1700000000004
              1700000000005 1700000000006 1700000000007 1700000000008)
           "1700000000000" (Some "What is my balance?") (Some "u1") None
           emptyStore); try reflexivity.
  discriminate.
Defined.

(** X13: a complete exchange.  When both fields are present, [id] does not
    resolve to an inherited member and [generateChatResponse] returns a value
    other than [null], the handler answers 200 with the two messages; the
    messages of [id] grow by the user message followed by an assistant
    message carrying exactly that value; the first conversation with that id
    gets the message as [lastMessage], the ids of the conversations and their
    number stay as they were. *)
Theorem answered_question_is_recorded
    (subtract : Z -> Moment.unit -> Z) (toISOString formatTime : Z -> string)
    (GEMINI_API_URL GEMINI_API_KEY : option string)
    (post : GenRequest -> AxiosOutcome) (hostPrompt : option Json)
    (clock : SendClock) (id : string) (messageField userIdField : option string)
    (transactions : option (list Transaction.t)) (store : Store) :
  truthy messageField = true -> truthy userIdField = true ->
  JsObject.get id (messages store) <> JsObject.PrototypeMember ->
  let answer :=
    fst (generateChatResponse subtract (atAnalysis clock) GEMINI_API_URL
           GEMINI_API_KEY post hostPrompt (fieldText messageField) transactions) in
  answer <> JNull ->
  let result :=
    sendMessage subtract toISOString formatTime GEMINI_API_URL GEMINI_API_KEY
      post hostPrompt clock id messageField userIdField transactions store in
  let userMessage :=
    userMessageOf toISOString formatTime clock (fieldText messageField) in
  let aiMessage := aiMessageOf toISOString formatTime clock answer in
  fst (fst result) = mkResponse 200 (ExchangeBody userMessage aiMessage)
  /\ Message.text aiMessage = answer
  /\ getMessages id (snd (fst result))
     = mkResponse 200
         (MessagesBody
            (MessageList (storedAt id store ++ [userMessage; aiMessage])))
  /\ map Conversation.id (conversations (snd (fst result)))
     = map Conversation.id (conversations store)
  /\ (forall before c after,
         conversations store = before ++ c :: after ->
         Conversation.id c = id ->
         (forall c', In c' before -> Conversation.id c' <> id) ->
         exists c',
           conversations (snd (fst result)) = before ++ c' :: after
           /\ Conversation.lastMessage c' = fieldText messageField
           /\ Conversation.title c' = Conversation.title c).
Proof.
  intros Hm Hu Hid answer Hanswer result userMessage aiMessage. unfold result.
  rewrite (sendMessage_filed _ _ _ _ _ _ _ _ _ _ _ _ _ Hm Hu Hid).
  fold answer.
  assert (Hnull : isNull answer = false) by (destruct answer; auto; contradiction).
  rewrite Hnull. cbn [fst snd conversations].
  split; [reflexivity|]. split; [reflexivity|]. split.
  { unfold getMessages. cbn [messages]. now rewrite get_setOwn_same. }
  split; [apply touchConversation_ids|].
  intros before c after Hcs Hc Hbefore. rewrite Hcs. clear Hcs.
  induction before as [|b before IH]; simpl.
  - rewrite Hc, String.eqb_refl. eexists. split; [reflexivity|]. split; reflexivity.
  - destruct (String.eqb_spec (Conversation.id b) id) as [E | _].
    + exfalso. apply (Hbefore b); [now left | exact E].
    + destruct IH as [c' [H1 H2]]; [intros c0 H0; apply Hbefore; now right|].
      exists c'. split; [now rewrite H1 | exact H2].
Qed.

Lemma answered_question_is_recorded_witness :
  fst (fst (sendMessage Moment.utcSubtract decimal decimal None None
              (fun _ => Fulfilled (textResponse "Save first."))
              (Some (JStr "host"))
              (mkSendClock 1700000000001 1700000000002 1700000000003
                 1700000000004 1700000000005 1700000000006 1700000000007
                 1700000000008)
              "1700000000000" (Some "Hello") (Some "u1") None emptyStore))
  = mkResponse 200
      (ExchangeBody
         (Message.mk "1700000000001" (JStr "Hello") true
            "1700000000002" "1700000000003")
         (Message.mk "1700000000006" (JStr "Save first.") false
            "1700000000006" "1700000000007")).
Proof.
  apply (answered_question_is_recorded Moment.utcSubtract decimal decimal None
           None (fun _ => Fulfilled (textResponse "Save first."))
           (Some (JStr "host"))
           (mkSendClock 1700000000001 1700000000002 1700000000003 1700000000004
              1700000000005 1700000000006 1700000000007 1700000000008)
           "1700000000000" (Some "Hello") (Some "u1") None emptyStore);
    try reflexivity; discriminate.
Defined.

Lemma at_most_one_request
    (subtract : Z -> Moment.unit -> Z) (now : Z)
    (GEMINI_API_URL GEMINI_API_KEY : option string)
    (post : GenRequest -> AxiosOutcome) (hostPrompt : option Json)
    (message : string) (userTransactions : option (list Transaction.t)) :
  (List.length
     (snd (generateChatResponse subtract now GEMINI_API_URL GEMINI_API_KEY post
             hostPrompt message userTransactions)) <= 1)%nat.
Proof.
  unfold generateChatResponse, tryBlock, resolvePrompt.
  destruct (chooseContext subtract now message userTransactions); [simpl; lia|].
  destruct hostPrompt; [|simpl; lia].
  match goal with
  | |- context [post ?r] => destruct (post r) as [|data]
  end; [simpl; lia|].
  destruct (responseText data); simpl; lia.
Qed.

(** X14: what a send leaves alone.  Whatever the fields, the id and the
    generator, the messages filed under every other id read as before, the
    conversations keep their number and their ids, the messages filed under
    [id] are only ever extended, by at most two, and at most one request
    reaches the generator. *)
Theorem sendMessage_frame
    (subtract : Z -> Moment.unit -> Z) (toISOString formatTime : Z -> string)
    (GEMINI_API_URL GEMINI_API_KEY : option string)
    (post : GenRequest -> AxiosOutcome) (hostPrompt : option Json)
    (clock : SendClock) (id : string) (messageField userIdField : option string)
    (transactions : option (list Transaction.t)) (store : Store) :
  let result :=
    sendMessage subtract toISOString formatTime GEMINI_API_URL GEMINI_API_KEY
      post hostPrompt clock id messageField userIdField transactions store in
  (forall other, other <> id ->
                 getMessages other (snd (fst result)) = getMessages other store)
  /\ map Conversation.id (conversations (snd (fst result)))
     = map Conversation.id (conversations store)
  /\ (exists added, storedAt id (snd (fst result)) = storedAt id store ++ added
                    /\ (List.length added <= 2)%nat)
  /\ (List.length (snd result) <= 1)%nat.
Proof.
  intros result.
  destruct (sendMessage_store_cases subtract toISOString formatTime
              GEMINI_API_URL GEMINI_API_KEY hostPrompt post clock id
              messageField userIdField transactions store)
    as [[Hstore [Hsent _]] | [_ [_ [_ [Hsent [[_ Hstore] | [_ Hstore]]]]]]];
    fold result in Hstore, Hsent; rewrite Hstore, Hsent.
  - split; [reflexivity|]. split; [reflexivity|]. split; [|simpl; lia].
    exists []. split; [now rewrite app_nil_r | simpl; lia].
  - split; [|split; [reflexivity | split; [|apply at_most_one_request]]].
    + intros other Hne. unfold getMessages. cbn [messages].
      now rewrite get_setOwn_other.
    + eexists. unfold storedAt at 1. cbn [messages].
      rewrite getOwn_setOwn_same. split; [reflexivity | simpl; lia].
  - split; [|split; [apply touchConversation_ids | split; [|apply at_most_one_request]]].
    + intros other Hne. unfold getMessages. cbn [messages].
      now rewrite get_setOwn_other.
    + eexists. unfold storedAt at 1. cbn [messages].
      rewrite getOwn_setOwn_same. split; [reflexivity | simpl; lia].
Qed.

(* ------------------------------------------------------------------ *)
(** ** Invariants of the store *)


Lemma storedAt_Forall (P : Message.t -> Prop) (id : string) (store : Store) :
  Forall (fun kv => Forall P (snd kv)) (messages store) ->
  Forall P (storedAt id store).
Proof.
  intros H. unfold storedAt.
  destruct (JsObject.getOwn id (messages store)) as [l|] eqn:E; [|constructor].
  apply getOwn_In in E. rewrite Forall_forall in H. exact (H _ E).
Qed.

Lemma not_inherited_is_ordinary {V : Type} (id : string) (o : JsObject.t V) :
  ordinaryKeys o -> JsObject.get id o <> JsObject.PrototypeMember ->
  JsObject.isPrototypeKey id = false.
Proof.
  intros Ho Hget. unfold JsObject.get in Hget.
  destruct (JsObject.getOwn id o) as [v|] eqn:E.
  - apply getOwn_In in E. unfold ordinaryKeys in Ho. rewrite Forall_forall in Ho.
    exact (Ho _ E).
  - destruct (JsObject.isPrototypeKey id); [contradiction | reflexivity].
Qed.





(** X16: without a global [prompt] nothing is ever answered.  On such a host
    (Node.js) every reachable store holds user messages only, and every
    conversation still shows ["Conversation started"] as its last message. *)
Theorem no_assistant_message_without_global_prompt
    (subtract : Z -> Moment.unit -> Z) (toISOString formatTime : Z -> string)
    (GEMINI_API_URL GEMINI_API_KEY : option string) (store : Store) :
  Reachable subtract toISOString formatTime GEMINI_API_URL GEMINI_API_KEY None
    store ->
  unanswered store.
Proof.
  induction 1 as [| store clock titleField userIdField Hreach IH
                  | store post clock id messageField userIdField transactions
                      Hreach IH].
  - split; constructor.
  - destruct IH as [Hmsg Hconv].
    unfold createConversation. cbn [snd]. split; cbn [messages conversations].
    + apply setOwn_Forall; [exact Hmsg | constructor].
    + apply Forall_app. split; [exact Hconv | repeat constructor].
  - destruct IH as [Hmsg Hconv].
    destruct (sendMessage_store_cases subtract toISOString formatTime
                GEMINI_API_URL GEMINI_API_KEY None post clock id
                messageField userIdField transactions store)
      as [[Hstore _] | [_ [_ [_ [_ [[_ Hstore] | [Hnull _]]]]]]].
    + rewrite Hstore. now split.
    + rewrite Hstore. split; cbn [messages conversations]; [|exact Hconv].
      apply setOwn_Forall; [exact Hmsg|]. cbn [snd].
      apply Forall_app. split; [now apply storedAt_Forall|].
      repeat constructor.
    + rewrite no_global_prompt_always_null in Hnull. discriminate.
Qed.

Lemma no_assistant_message_without_global_prompt_witness :
  unanswered
    (snd (fst (sendMessage Moment.utcSubtract decimal decimal None None
                 (fun _ => Fulfilled (textResponse "Save first.")) None
                 (mkSendClock 1700000000001 1700000000002 1700000000003
                    1700000000004 1700000000005 1700000000006 1700000000007
                    1700000000008)
                 "1700000000000" (Some "Hello") (Some "u1") None emptyStore))).
Proof.
  apply (no_assistant_message_without_global_prompt Moment.utcSubtract decimal
           decimal None None).
  apply reach_send, reach_start.
Defined.

(** X17: an id that names an inherited member.  On every reachable store, a
    send whose [id] is a property name inherited from [Object.prototype]
    (such as [constructor]) answers 500, sends no request and leaves the
    store as it was, and reading the messages of that id yields the
    inherited member instead of a message list. *)
Theorem send_to_inherited_id_fails
    (subtract : Z -> Moment.unit -> Z) (toISOString formatTime : Z -> string)
    (GEMINI_API_URL GEMINI_API_KEY : option string)
    (post : GenRequest -> AxiosOutcome) (hostPrompt : option Json)
    (clock : SendClock) (id : string) (messageField userIdField : option string)
    (transactions : option (list Transaction.t)) (store : Store) :
  Reachable subtract toISOString formatTime GEMINI_API_URL GEMINI_API_KEY
    hostPrompt store ->
  JsObject.isPrototypeKey id = true ->
  truthy messageField = true -> truthy userIdField = true ->
  sendMessage subtract toISOString formatTime GEMINI_API_URL GEMINI_API_KEY post
    hostPrompt clock id messageField userIdField transactions store
  = (mkResponse 500 (ErrorBody "Failed to send message"), store, [])
  /\ getMessages id store = mkResponse 200 (MessagesBody (InheritedMember id)).
Proof.
  intros Hreach Hid Hm Hu.
  assert (Hkeys : ordinaryKeys (messages store)).
  { pose proof Hreach as Hr. clear Hid Hm Hu.
    induction Hr as [| s c t u Hr IH | s p c i m u t Hr IH].
    - constructor.
    - unfold createConversation. cbn [snd messages].
      apply setOwn_ordinaryKeys; [apply decimal_ordinary | now apply IH].
    - specialize (IH Hr).
      destruct (sendMessage_store_cases subtract toISOString formatTime
                  GEMINI_API_URL GEMINI_API_KEY hostPrompt p c i m u t s)
        as [[Hs _] | [_ [_ [Hi [_ [[_ Hs] | [_ Hs]]]]]]]; rewrite Hs;
        [exact IH | |]; cbn [messages];
        (apply setOwn_ordinaryKeys;
         [now apply (not_inherited_is_ordinary i (messages s)) | exact IH]). }
  assert (Hget : JsObject.get id (messages store) = JsObject.PrototypeMember).
  { unfold JsObject.get. now rewrite (getOwn_prototype_key _ _ Hid Hkeys), Hid. }
  split.
  - unfold sendMessage. rewrite Hm, Hu. cbn [negb orb]. rewrite Hget, Hget.
    now destruct store.
  - unfold getMessages. now rewrite Hget.
Qed.

Lemma send_to_inherited_id_fails_witness :
  sendMessage Moment.utcSubtract decimal decimal None None
    (fun _ => Fulfilled (textResponse "Save first.")) (Some (JStr "host"))
    (mkSendClock 1700000000001 1700000000002 1700000000003 1700000000004
       1700000000005 1700000000006 1700000000007 1700000000008)
    "constructor" (Some "Hello") (Some "u1") None emptyStore
  = (mkResponse 500 (ErrorBody "Failed to send message"), emptyStore, []).
Proof.
  apply (send_to_inherited_id_fails Moment.utcSubtract decimal decimal None None
           (fun _ => Fulfilled (textResponse "Save first.")) (Some (JStr "host"))
           (mkSendClock 1700000000001 1700000000002 1700000000003 1700000000004
              1700000000005 1700000000006 1700000000007 1700000000008)
           "constructor" (Some "Hello") (Some "u1") None emptyStore);
    try reflexivity.
  apply reach_start.
Defined.

(* ------------------------------------------------------------------ *)
(** ** More on the router and the classifier *)

(** X18: what reaches the generator does not depend on the question.  Any
    two requests the function sends, for whatever messages, transactions and
    clock readings, are the same request, and its text is the value the host
    binds to [prompt]: neither the message nor the transactions are in it. *)
Theorem request_ignores_the_question
    (subtract : Z -> Moment.unit -> Z)
    (GEMINI_API_URL GEMINI_API_KEY : option string)
    (post : GenRequest -> AxiosOutcome) (hostPrompt : option Json)
    (now1 now2 : Z) (message1 message2 : string)
    (transactions1 transactions2 : option (list Transaction.t))
    (request1 request2 : GenRequest) :
  In request1
     (snd (generateChatResponse subtract now1 GEMINI_API_URL GEMINI_API_KEY post
             hostPrompt message1 transactions1)) ->
  In request2
     (snd (generateChatResponse subtract now2 GEMINI_API_URL GEMINI_API_KEY post
             hostPrompt message2 transactions2)) ->
  request1 = request2
  /\ exists v, hostPrompt = Some v /\ text request1 = VHost v.
Proof.
  unfold generateChatResponse, tryBlock, resolvePrompt.
  destruct (chooseContext subtract now1 message1 transactions1); [intros []|].
  destruct (chooseContext subtract now2 message2 transactions2); [intros _ []|].
  destruct hostPrompt as [v|]; [|intros []].
  match goal with
  | |- context [post ?r] => set (request := r)
  end.
  assert (H : forall r,
             In r (snd (let (c, sent) :=
                          match post request with
                          | Rejected => (Throw AxiosError, [request])
                          | Fulfilled data => (responseText data, [request])
                          end in
                        match c with
                        | Ok v0 => (v0, sent)
                        | Throw _ => (JNull, sent)
                        end)) -> r = request).
  { intros r. destruct (post request) as [|data].
    - intros [<- | []]. reflexivity.
    - destruct (responseText data); intros [<- | []]; reflexivity. }
  intros H1 H2. apply H in H1, H2. subst. split; [reflexivity|].
  exists v. split; reflexivity.
Qed.

Lemma request_ignores_the_question_witness :
  {| url := "undefined?key=undefined"; text := VHost (JStr "host");
     temperature := 7 # 10; maxOutputTokens := 500 |}
  = {| url := "undefined?key=undefined"; text := VHost (JStr "host");
       temperature := 7 # 10; maxOutputTokens := 500 |}
  /\ exists v, Some (JStr "host") = Some v /\ VHost (JStr "host") = VHost v.
Proof.
  apply (request_ignores_the_question Moment.utcSubtract None None
           (fun _ => Rejected) (Some (JStr "host")) 1700000000000 1700000000001
           "Hello" "What is my balance?" None (Some [tx 1699990000000 5 "Ann"])
           {| url := "undefined?key=undefined"; text := VHost (JStr "host");
              temperature := 7 # 10; maxOutputTokens := 500 |}
           {| url := "undefined?key=undefined"; text := VHost (JStr "host");
              temperature := 7 # 10; maxOutputTokens := 500 |});
    left; reflexivity.
Defined.

(** X19: an answer can only come from the generator.  If the function
    returns anything other than [null], then the host binds [prompt], exactly
    one request was sent, the generator fulfilled it, the value returned is
    what line 128 reads from its response, and the gate was passed: the
    message is not flagged or transactions were supplied. *)
Theorem answers_come_from_the_generator
    (subtract : Z -> Moment.unit -> Z) (now : Z)
    (GEMINI_API_URL GEMINI_API_KEY : option string)
    (post : GenRequest -> AxiosOutcome) (hostPrompt : option Json)
    (message : string) (userTransactions : option (list Transaction.t)) :
  let result :=
    generateChatResponse subtract now GEMINI_API_URL GEMINI_API_KEY post
      hostPrompt message userTransactions in
  fst result <> JNull ->
  exists v request data,
    hostPrompt = Some v
    /\ snd result = [request]
    /\ text request = VHost v
    /\ post request = Fulfilled data
    /\ responseText data = Ok (fst result)
    /\ (requiresTransactionData message = false
        \/ noTransactions userTransactions = false).
Proof.
  intros result. unfold result, generateChatResponse, tryBlock, resolvePrompt.
  unfold chooseContext.
  assert (Hgate : requiresTransactionData message
                  && noTransactions userTransactions = false
                  -> requiresTransactionData message = false
                     \/ noTransactions userTransactions = false).
  { destruct (requiresTransactionData message); simpl; auto. }
  destruct (requiresTransactionData message) eqn:Hreq;
    [destruct (noTransactions userTransactions) eqn:Hno;
     [intros H; now contradiction H|]|];
    (destruct hostPrompt as [v|]; [|intros H; now contradiction H]);
    match goal with
    | |- context [post ?r] => set (request := r)
    end;
    (destruct (post request) as [|data] eqn:Hpost;
     [intros H; now contradiction H|]);
    (destruct (responseText data) as [answer|e] eqn:Htext;
     [|intros H; now contradiction H]);
    intros _; exists v, request, data; cbn [fst snd];
    repeat split; auto.
Qed.

Lemma answers_come_from_the_generator_witness :
  exists v request data,
    Some (JStr "host") = Some v
    /\ snd (generateChatResponse Moment.utcSubtract 1700000000000 None None
              (fun _ => Fulfilled (textResponse "Save first."))
              (Some (JStr "host")) "Hello" None)
       = [request]
    /\ text request = VHost v
    /\ (fun _ : GenRequest => Fulfilled (textResponse "Save first.")) request
       = Fulfilled data
    /\ responseText data
       = Ok (fst (generateChatResponse Moment.utcSubtract 1700000000000 None None
                    (fun _ => Fulfilled (textResponse "Save first."))
                    (Some (JStr "host")) "Hello" None))
    /\ (requiresTransactionData "Hello" = false \/ noTransactions None = false).
Proof.
  apply (answers_come_from_the_generator Moment.utcSubtract 1700000000000 None
           None (fun _ => Fulfilled (textResponse "Save first."))
           (Some (JStr "host")) "Hello" None).
  vm_compute. discriminate.
Defined.

Lemma toLowerCase_app (a b : string) :
  JsString.toLowerCase (a ++ b)
  = (JsString.toLowerCase a ++ JsString.toLowerCase b)%string.
Proof.
  induction a as [|c a IH]; simpl; [reflexivity|]. now rewrite IH.
Qed.

Lemma toLowerCase_length (s : string) :
  String.length (JsString.toLowerCase s) = String.length s.
Proof.
  induction s as [|c s IH]; simpl; [reflexivity|]. now rewrite IH.
Qed.

Lemma string_append_assoc (a b c : string) :
  ((a ++ b) ++ c = a ++ (b ++ c))%string.
Proof.
  induction a as [|x a IH]; simpl; [reflexivity|]. now rewrite IH.
Qed.

Lemma string_append_length (a b : string) :
  String.length (a ++ b) = (String.length a + String.length b)%nat.
Proof.
  induction a as [|x a IH]; simpl; [reflexivity|]. now rewrite IH.
Qed.

Lemma flagged_has_keyword (message : string) :
  requiresTransactionData message = true ->
  exists keyword before after,
    In keyword transactionKeywords
    /\ JsString.toLowerCase message = (before ++ keyword ++ after)%string.
Proof.
  unfold requiresTransactionData, JsArray.some. rewrite existsb_exists.
  intros [keyword [Hin Hinc]]. apply includes_app in Hinc.
  destruct Hinc as [before [after H]]. now exists keyword, before, after.
Qed.

(** X20: the classifier is permissive and blind to short messages.  A
    flagged message stays flagged when any text is put before and after it;
    and a message of fewer than four characters is never flagged, every
    keyword having at least four. *)
Theorem classifier_context_and_length (message : string) :
  (requiresTransactionData message = true ->
   forall before after,
     requiresTransactionData (before ++ message ++ after)%string = true)
  /\ ((String.length message < 4)%nat -> requiresTransactionData message = false).
Proof.
  split.
  - intros Hflag before after.
    apply flagged_has_keyword in Hflag.
    destruct Hflag as [keyword [b [a [Hin H]]]].
    unfold requiresTransactionData, JsArray.some. apply existsb_exists.
    exists keyword. split; [exact Hin|]. apply includes_app.
    exists (JsString.toLowerCase before ++ b)%string,
           (a ++ JsString.toLowerCase after)%string.
    rewrite !toLowerCase_app, H. now rewrite !string_append_assoc.
  - intros Hshort.
    destruct (requiresTransactionData message) eqn:Hflag; [|reflexivity].
    exfalso. apply flagged_has_keyword in Hflag.
    destruct Hflag as [keyword [b [a [Hin H]]]].
    apply (f_equal String.length) in H.
    rewrite toLowerCase_length, !string_append_length in H.
    assert (Hk : (4 <= String.length keyword)%nat).
    { unfold transactionKeywords in Hin. simpl in Hin.
      repeat (destruct Hin as [<- | Hin]; [simpl; lia|]). contradiction. }
    lia.
Qed.

Lemma classifier_context_and_length_witness :
  requiresTransactionData ("Please tell me: " ++ "my balance" ++ ", thanks")%string
  = true
  /\ requiresTransactionData "hi?" = false.
Proof.
  split.
  - apply (classifier_context_and_length "my balance"). reflexivity.
  - apply (classifier_context_and_length "hi?"). simpl. lia.
Defined.

(** X21: an unrecognised period is echoed.  For a period name other than
    [day], [week], [month] and [year] the analysis handler answers 200 with
    a summary whose [period] field is that very name while every other field
    is what the period [week] gives. *)
Theorem unrecognised_period_is_echoed
    (subtract : Z -> Moment.unit -> Z) (now : Z)
    (txs : list Transaction.t) (p : string) :
  p <> "day" -> p <> "week" -> p <> "month" -> p <> "year" ->
  let weekly := analyzeTransactions subtract now txs (Some "week") in
  analyzeHandler subtract now (TransactionArray txs) (Some p)
  = mkResponse 200
      (AnalysisBody
         {| period := p;
            totalSpent := totalSpent weekly;
            totalReceived := totalReceived weekly;
            netAmount := netAmount weekly;
            transactionCount := transactionCount weekly;
            topSenders := topSenders weekly;
            topReceivers := topReceivers weekly |}).
Proof.
  intros Hd Hw Hm Hy weekly. unfold analyzeHandler, weekly, analyzeTransactions.
  assert (Hsame : filteredTransactionsOf subtract now txs p
                  = filteredTransactionsOf subtract now txs "week").
  { rewrite !filteredTransactionsOf_filter. do 2 f_equal.
    unfold lookback.
    destruct (String.eqb_spec p "day"); [contradiction|].
    destruct (String.eqb_spec p "month"); [contradiction|].
    destruct (String.eqb_spec p "year"); [contradiction | reflexivity]. }
  rewrite Hsame. reflexivity.
Qed.

Lemma unrecognised_period_is_echoed_witness :
  analyzeHandler Moment.utcSubtract 1700000000000
    (TransactionArray [tx 1699990000000 200 "Alice"]) (Some "fortnight")
  = mkResponse 200
      (AnalysisBody
         {| period := "fortnight"; totalSpent := 0; totalReceived := 200;
            netAmount := 200; transactionCount := 1;
            topSenders := [Person.mk "Alice" 200 1]; topReceivers := [] |}).
Proof.
  apply (unrecognised_period_is_echoed Moment.utcSubtract 1700000000000
           [tx 1699990000000 200 "Alice"] "fortnight"); discriminate.
Defined.
